(** * ClarifyMeet AI: the minutes generator and its session handlers

    A shallow embedding of [src/streamlit_app.py].  Python text is
    represented by its UTF-8 encoding ([string] is a sequence of bytes),
    Python dictionaries by insertion-ordered association lists, and the
    values that [json.loads] produces by the inductive type [json]
    (integer numbers only: floating-point numbers are not represented).
    The secrets store, the environment, the Gemini client, [json.loads]
    and [repr] are parameters of the application; a stored secret and the
    [text] of a response are taken to be texts.  The handlers of the page
    run in a small monad that threads the session store and the trace of
    user-interface and network events, and in which an exception leaves
    the store as it was when it was raised.  The four tabs (lines 252-315)
    are drawn by functions that read the store and give the markup they
    write; [page_body] runs the blocks of the page in the order of the
    script.  The fixed markup of the page and the file upload are left
    out. *)

From Stdlib Require Import String Ascii List ZArith Bool Lia Permutation.
From Stdlib Require Import DecimalString.
Import ListNotations.
Set Warnings "-register-all".
Local Open Scope list_scope.
Local Open Scope string_scope.

(** ** Python text *)

(** The characters that Rocq's string notation cannot hold literally. *)
Definition dq : string := String "034"%char EmptyString.
Definition nl : string := String "010"%char EmptyString.

Definition bytes (codes : list nat) : string :=
  string_of_list_ascii (map ascii_of_nat codes).

(** [bool(s)] for a [str]: the empty text is false. *)
Definition str_truthy (s : string) : bool :=
  match s with
  | EmptyString => false
  | String _ _ => true
  end.

(** [sep.join(parts)]. *)
Definition join (sep : string) (parts : list string) : string :=
  String.concat sep parts.

(** [parts.append(x)]. *)
Definition list_append {A : Type} (parts : list A) (x : A) : list A :=
  (parts ++ [x])%list.

Fixpoint string_rev_onto (s acc : string) : string :=
  match s with
  | EmptyString => acc
  | String c r => string_rev_onto r (String c acc)
  end.

Definition string_rev (s : string) : string := string_rev_onto s EmptyString.

(** [str.isspace] on a code point below U+0080: TAB, LF, VT, FF, CR,
    FS, GS, RS, US and SPACE. *)
Definition ascii_space (c : ascii) : bool :=
  let n := nat_of_ascii c in
  (((9 <=? n) && (n <=? 13)) || ((28 <=? n) && (n <=? 32)))%nat.

(** The two-byte encodings of U+0085 and U+00A0. *)
Definition space2 (c1 c2 : ascii) : bool :=
  ((nat_of_ascii c1 =? 194) &&
   ((nat_of_ascii c2 =? 133) || (nat_of_ascii c2 =? 160)))%nat.

(** The three-byte encodings of U+1680, U+2000..U+200A, U+2028, U+2029,
    U+202F, U+205F and U+3000. *)
Definition space3 (c1 c2 c3 : ascii) : bool :=
  let n1 := nat_of_ascii c1 in
  let n2 := nat_of_ascii c2 in
  let n3 := nat_of_ascii c3 in
  (((n1 =? 225) && (n2 =? 154) && (n3 =? 128)) ||
   ((n1 =? 226) && (n2 =? 128) &&
      (((128 <=? n3) && (n3 <=? 138)) || (n3 =? 168) || (n3 =? 169) || (n3 =? 175))) ||
   ((n1 =? 226) && (n2 =? 129) && (n3 =? 159)) ||
   ((n1 =? 227) && (n2 =? 128) && (n3 =? 128)))%nat.

(** [str.lstrip()]: drop the leading white-space code points. *)
Fixpoint lstrip (s : string) : string :=
  match s with
  | EmptyString => EmptyString
  | String c1 r1 =>
      if ascii_space c1 then lstrip r1
      else
        match r1 with
        | EmptyString => s
        | String c2 r2 =>
            if space2 c1 c2 then lstrip r2
            else
              match r2 with
              | EmptyString => s
              | String c3 r3 => if space3 c1 c2 c3 then lstrip r3 else s
              end
        end
  end.

(** The same scan on the reversed text, where the bytes of a code point
    come last byte first. *)
Fixpoint lstrip_rev (s : string) : string :=
  match s with
  | EmptyString => EmptyString
  | String c1 r1 =>
      if ascii_space c1 then lstrip_rev r1
      else
        match r1 with
        | EmptyString => s
        | String c2 r2 =>
            if space2 c2 c1 then lstrip_rev r2
            else
              match r2 with
              | EmptyString => s
              | String c3 r3 => if space3 c3 c2 c1 then lstrip_rev r3 else s
              end
        end
  end.

(** [str.rstrip()] and [str.strip()]. *)
Definition rstrip (s : string) : string := string_rev (lstrip_rev (string_rev s)).
Definition strip (s : string) : string := rstrip (lstrip s).

(** [str(n)] for an [int]. *)
Definition int_str (z : Z) : string := NilZero.string_of_int (Z.to_int z).

(** ** Python values and dictionaries *)

(** The values [json.loads] builds: [None], [bool], [int], [str], [list]
    and [dict] with text keys. *)
Inductive json : Type :=
| JNull
| JBool (b : bool)
| JInt (z : Z)
| JStr (s : string)
| JArr (items : list json)
| JObj (members : list (string * json)).

(** A [dict]: its keys in insertion order, each key once. *)
Definition pydict : Type := list (string * json).

Definition dict_keys (d : pydict) : list string := map fst d.

(** [d.get(k)], with [None] for Python's [None] default. *)
Fixpoint dict_get (k : string) (d : pydict) : option json :=
  match d with
  | [] => None
  | (k', v) :: rest => if String.eqb k k' then Some v else dict_get k rest
  end.

(** [k in d]. *)
Definition dict_mem (k : string) (d : pydict) : bool :=
  match dict_get k d with
  | Some _ => true
  | None => false
  end.

(** [d.get(k, default)]. *)
Definition dict_get_default (k : string) (default : json) (d : pydict) : json :=
  match dict_get k d with
  | Some v => v
  | None => default
  end.

(** [d[k] = v]: a key already in [d] keeps its place and takes the new
    value, a new key goes last. *)
Fixpoint dict_set (k : string) (v : json) (d : pydict) : pydict :=
  match d with
  | [] => [(k, v)]
  | (k', v') :: rest =>
      if String.eqb k k' then (k', v) :: rest else (k', v') :: dict_set k v rest
  end.

(** [{**a, **b}]: the members of [b] are stored into [a] one after the other. *)
Definition dict_merge (a b : pydict) : pydict :=
  fold_left (fun d kv => dict_set (fst kv) (snd kv) d) b a.

(** [bool(v)]. *)
Definition truthy (v : json) : bool :=
  match v with
  | JNull => false
  | JBool b => b
  | JInt z => negb (Z.eqb z 0)
  | JStr s => str_truthy s
  | JArr items => match items with [] => false | _ :: _ => true end
  | JObj members => match members with [] => false | _ :: _ => true end
  end.

(** [type(v).__name__]. *)
Definition type_name (v : json) : string :=
  match v with
  | JNull => "NoneType"
  | JBool _ => "bool"
  | JInt _ => "int"
  | JStr _ => "str"
  | JArr _ => "list"
  | JObj _ => "dict"
  end.

(** ** [json.dumps(value, indent=n, ensure_ascii=False)] *)

Definition hex_digit (n : nat) : ascii :=
  if (n <? 10)%nat then ascii_of_nat (48 + n) else ascii_of_nat (87 + n).

(** [ESCAPE_DCT] of [json.encoder]: the replacement of a character matched
    by [ESCAPE], that is of the quote, the backslash and the control
    characters below U+0020; every other byte stands for itself. *)
Definition escape_char (c : ascii) : string :=
  let n := nat_of_ascii c in
  if (n =? 34)%nat then "\" ++ dq
  else if (n =? 92)%nat then "\\"
  else if (n =? 8)%nat then "\b"
  else if (n =? 12)%nat then "\f"
  else if (n =? 10)%nat then "\n"
  else if (n =? 13)%nat then "\r"
  else if (n =? 9)%nat then "\t"
  else if (n <? 32)%nat then
    "\u00" ++ String (hex_digit (n / 16)) (String (hex_digit (n mod 16)) EmptyString)
  else String c EmptyString.

Fixpoint escape_text (s : string) : string :=
  match s with
  | EmptyString => EmptyString
  | String c r => escape_char c ++ escape_text r
  end.

(** [encode_basestring], the text encoder that [ensure_ascii=False] selects. *)
Definition encode_basestring (s : string) : string :=
  dq ++ escape_text s ++ dq.

Fixpoint spaces (n : nat) : string :=
  match n with
  | O => EmptyString
  | S m => String " "%char (spaces m)
  end.

(** [newline_indent = '\n' + _indent * _current_indent_level]. *)
Definition newline_indent (indent level : nat) : string :=
  nl ++ spaces (indent * level).

(** [_iterencode] at nesting depth [level], with the separators that a
    given [indent] implies: [","] between items and [": "] after a key. *)
Fixpoint json_encode (indent level : nat) (v : json) : string :=
  match v with
  | JNull => "null"
  | JBool true => "true"
  | JBool false => "false"
  | JInt z => int_str z
  | JStr s => encode_basestring s
  | JArr [] => "[]"
  | JArr items =>
      "[" ++ newline_indent indent (S level)
          ++ join ("," ++ newline_indent indent (S level))
                  (map (json_encode indent (S level)) items)
          ++ newline_indent indent level ++ "]"
  | JObj [] => "{}"
  | JObj members =>
      "{" ++ newline_indent indent (S level)
          ++ join ("," ++ newline_indent indent (S level))
                  (map (fun kv => let '(k, x) := kv in
                                  encode_basestring k ++ ": " ++ json_encode indent (S level) x)
                       members)
          ++ newline_indent indent level ++ "}"
  end.

Definition json_dumps (indent : nat) (v : json) : string := json_encode indent 0 v.

(** ** Exceptions, outcomes and the handler monad *)

(** The classes of the exceptions the program meets.  Every value of [exn]
    stands for an instance of Python's [Exception]. *)
Inductive exn_class : Type :=
| JSONDecodeError
| TypeError
| ValueError
| AttributeError
| KeyError
| OtherException (name : string).

(** An exception: its class and the text [str(exc)] gives. *)
Record exn : Type := Exn { exn_class_of : exn_class; exn_str : string }.

(** [isinstance(e, json.JSONDecodeError)]. *)
Definition is_json_decode_error (e : exn) : bool :=
  match exn_class_of e with
  | JSONDecodeError => true
  | _ => false
  end.

(** [isinstance(e, Exception)]. *)
Definition is_exception (e : exn) : bool := true.

(** What a call does: it returns a value or raises. *)
Inductive outcome (A : Type) : Type :=
| Return (a : A)
| Raise (e : exn).
Arguments Return {A} a.
Arguments Raise {A} e.

(** What the page shows and sends while a handler runs. *)
Inductive event : Type :=
| StWarning (body : string)
| StError (body : string)
| StSuccess (body : string)
| StInfo (body : string)
| StSpinner (text : string)
| StExpander (label : string)
| StCode (body : json) (language : string)
| StDownloadButton (label data file_name mime : string) (disabled : bool)
| StRerun
| GenerateContent (model : string) (parts : list string) (response_mime_type : string).

(** The session store [st.session_state] and the events so far. *)
Record world : Type := World { session_state : pydict; trace : list event }.

Definition M (A : Type) : Type := world -> outcome A * world.

Definition ret {A : Type} (a : A) : M A := fun w => (Return a, w).

Definition bind {A B : Type} (m : M A) (f : A -> M B) : M B :=
  fun w =>
    match m w with
    | (Return a, w') => f a w'
    | (Raise e, w') => (Raise e, w')
    end.

Definition raise {A : Type} (e : exn) : M A := fun w => (Raise e, w).

Definition lift {A : Type} (o : outcome A) : M A := fun w => (o, w).

(** [try: body / except <class>: handler]: the handler runs in the world
    the body left behind. *)
Definition try_except {A : Type} (catches : exn -> bool) (body : M A)
    (handler : exn -> M A) : M A :=
  fun w =>
    match body w with
    | (Return a, w') => (Return a, w')
    | (Raise e, w') => if catches e then handler e w' else (Raise e, w')
    end.

Definition emit (ev : event) : M unit :=
  fun w => (Return tt, World (session_state w) (trace w ++ [ev])%list).

(** [name in st.session_state]. *)
Definition in_state (name : string) : M bool :=
  fun w => (Return (dict_mem name (session_state w)), w).

(** [st.session_state.<name>]. *)
Definition get_state (name : string) : M json :=
  fun w =>
    match dict_get name (session_state w) with
    | Some v => (Return v, w)
    | None =>
        (Raise (Exn AttributeError
                  ("st.session_state has no attribute " ++ dq ++ name ++ dq)), w)
    end.

(** [st.session_state.<name> = v]. *)
Definition set_state (name : string) (v : json) : M unit :=
  fun w => (Return tt, World (dict_set name v (session_state w)) (trace w)).

(** [value.get(k)] for a value read from the store. *)
Definition method_get (value : json) (k : string) : M json :=
  match value with
  | JObj d => ret (dict_get_default k JNull d)
  | _ => raise (Exn AttributeError
                  ("'" ++ type_name value ++ "' object has no attribute 'get'"))
  end.

Declare Scope handler_scope.
Delimit Scope handler_scope with handler.
Notation "x <- m ;; k" := (bind m (fun x => k))
  (at level 61, m at next level, right associativity) : handler_scope.
Notation "m ;; k" := (bind m (fun _ => k))
  (at level 61, right associativity) : handler_scope.
Local Open Scope handler_scope.

(** The events a run added to the trace it started from. *)
Definition events_since (before after : world) (evs : list event) : Prop :=
  trace after = (trace before ++ evs)%list.

Definition is_network_call (ev : event) : bool :=
  match ev with
  | GenerateContent _ _ _ => true
  | _ => false
  end.

(** A Gemini client: what [client.models.generate_content] answers to a
    request, namely [response.text] or an exception. *)
Record client : Type := Client {
  generate_content : string -> list string -> string -> outcome string
}.

(** The one network call, recorded in the trace as it is made. *)
Definition call_generate_content (c : client) (model : string)
    (parts : list string) (mime : string) : M string :=
  emit (GenerateContent model parts mime) ;;
  lift (generate_content c model parts mime).

(** ** A decoder for a fragment of JSON

    [json.loads] is a parameter of the application below.  To run the
    application on concrete responses, this decoder follows
    [json.decoder] on the texts without fractions, exponents, [NaN],
    [Infinity] and [\u] escapes; a text outside the fragment is reported
    apart from a malformed one. *)

Inductive scan (A : Type) : Type :=
| Scanned (a : A) (rest : string)
| Malformed
| Unsupported.
Arguments Scanned {A} a rest.
Arguments Malformed {A}.
Arguments Unsupported {A}.

(** [WHITESPACE]: space, TAB, LF and CR. *)
Definition json_space (c : ascii) : bool :=
  let n := nat_of_ascii c in
  ((n =? 32) || (n =? 9) || (n =? 10) || (n =? 13))%nat.

Fixpoint skip_ws (s : string) : string :=
  match s with
  | EmptyString => EmptyString
  | String c r => if json_space c then skip_ws r else s
  end.

Definition is_digit (c : ascii) : bool :=
  let n := nat_of_ascii c in ((48 <=? n) && (n <=? 57))%nat.

Definition digit_value (c : ascii) : Z := Z.of_nat (nat_of_ascii c - 48).

Fixpoint scan_digits (s : string) (acc : Z) : Z * string :=
  match s with
  | EmptyString => (acc, s)
  | String c r =>
      if is_digit c then scan_digits r (10 * acc + digit_value c)%Z else (acc, s)
  end.

Definition strip_prefix (p s : string) : option string :=
  if prefix p s then Some (substring (String.length p) (String.length s - String.length p) s)
  else None.

(** The escapes of [BACKSLASH]. *)
Definition unescape (c : ascii) : option ascii :=
  let n := nat_of_ascii c in
  if (n =? 34)%nat then Some c
  else if (n =? 92)%nat then Some c
  else if (n =? 47)%nat then Some c
  else if (n =? 98)%nat then Some (ascii_of_nat 8)
  else if (n =? 102)%nat then Some (ascii_of_nat 12)
  else if (n =? 110)%nat then Some (ascii_of_nat 10)
  else if (n =? 114)%nat then Some (ascii_of_nat 13)
  else if (n =? 116)%nat then Some (ascii_of_nat 9)
  else None.

(** [scanstring] in strict mode, from the character after the opening
    quote; [acc] holds the text read so far, reversed. *)
Fixpoint scan_string (s acc : string) : scan string :=
  match s with
  | EmptyString => Malformed
  | String c r =>
      let n := nat_of_ascii c in
      if (n =? 34)%nat then Scanned (string_rev acc) r
      else if (n =? 92)%nat then
        match r with
        | EmptyString => Malformed
        | String e r' =>
            if (nat_of_ascii e =? 117)%nat then Unsupported
            else
              match unescape e with
              | Some ch => scan_string r' (String ch acc)
              | None => Malformed
              end
        end
      else if (n <? 32)%nat then Malformed
      else scan_string r (String c acc)
  end.

Definition starts_fraction (s : string) : bool :=
  match s with
  | String c (String d _) => (nat_of_ascii c =? 46)%nat && is_digit d
  | _ => false
  end.

Definition starts_exponent (s : string) : bool :=
  match s with
  | String e (String d r) =>
      ((nat_of_ascii e =? 101) || (nat_of_ascii e =? 69))%nat &&
      (is_digit d ||
       (((nat_of_ascii d =? 43) || (nat_of_ascii d =? 45))%nat &&
        match r with
        | String d' _ => is_digit d'
        | EmptyString => false
        end))
  | _ => false
  end.

(** [NUMBER_RE]: an optional sign, then [0] or a digit string without a
    leading zero. *)
Definition scan_number (s : string) : scan json :=
  let '(negative, body) :=
    match s with
    | String c r => if (nat_of_ascii c =? 45)%nat then (true, r) else (false, s)
    | EmptyString => (false, s)
    end in
  match body with
  | EmptyString => Malformed
  | String c r =>
      if is_digit c then
        let '(n, rest) := if (nat_of_ascii c =? 48)%nat then (0%Z, r) else scan_digits body 0 in
        if starts_fraction rest || starts_exponent rest then Unsupported
        else Scanned (JInt (if negative then (- n)%Z else n)) rest
      else Malformed
  end.

(** [scan_once] without containers: texts, the three literals, numbers. *)
Definition scan_scalar (s : string) : scan json :=
  match s with
  | EmptyString => Malformed
  | String c r =>
      if (nat_of_ascii c =? 34)%nat then
        match scan_string r EmptyString with
        | Scanned t rest => Scanned (JStr t) rest
        | Malformed => Malformed
        | Unsupported => Unsupported
        end
      else
        match strip_prefix "null" s, strip_prefix "true" s, strip_prefix "false" s with
        | Some rest, _, _ => Scanned JNull rest
        | _, Some rest, _ => Scanned (JBool true) rest
        | _, _, Some rest => Scanned (JBool false) rest
        | None, None, None =>
            match scan_number s with
            | Malformed =>
                if prefix "NaN" s || prefix "Infinity" s || prefix "-Infinity" s
                then Unsupported else Malformed
            | other => other
            end
        end
  end.

(** [scan_once], [JSONArray] and [JSONObject].  [scan_items] starts at an
    item, [scan_members] after the opening quote of a key; the members read
    so far are kept as [dict(pairs)] builds them. *)
Fixpoint scan_value (fuel : nat) (s : string) : scan json :=
  match fuel with
  | O => Unsupported
  | S fuel' =>
      match s with
      | EmptyString => Malformed
      | String c r =>
          if (nat_of_ascii c =? 123)%nat then
            match skip_ws r with
            | EmptyString => Malformed
            | String c1 r1 =>
                if (nat_of_ascii c1 =? 125)%nat then Scanned (JObj []) r1
                else if (nat_of_ascii c1 =? 34)%nat then scan_members fuel' r1 []
                else Malformed
            end
          else if (nat_of_ascii c =? 91)%nat then
            match skip_ws r with
            | EmptyString => Malformed
            | String c1 r1 =>
                if (nat_of_ascii c1 =? 93)%nat then Scanned (JArr []) r1
                else scan_items fuel' (String c1 r1) []
            end
          else scan_scalar s
      end
  end
with scan_items (fuel : nat) (s : string) (acc : list json) : scan json :=
  match fuel with
  | O => Unsupported
  | S fuel' =>
      match scan_value fuel' s with
      | Scanned v rest =>
          match skip_ws rest with
          | EmptyString => Malformed
          | String c r =>
              if (nat_of_ascii c =? 93)%nat then Scanned (JArr (rev (v :: acc))) r
              else if (nat_of_ascii c =? 44)%nat then scan_items fuel' (skip_ws r) (v :: acc)
              else Malformed
          end
      | Malformed => Malformed
      | Unsupported => Unsupported
      end
  end
with scan_members (fuel : nat) (s : string) (acc : pydict) : scan json :=
  match fuel with
  | O => Unsupported
  | S fuel' =>
      match scan_string s EmptyString with
      | Scanned key rest =>
          match skip_ws rest with
          | EmptyString => Malformed
          | String c r =>
              if (nat_of_ascii c =? 58)%nat then
                match scan_value fuel' (skip_ws r) with
                | Scanned v rest' =>
                    match skip_ws rest' with
                    | EmptyString => Malformed
                    | String c' r' =>
                        if (nat_of_ascii c' =? 125)%nat then
                          Scanned (JObj (dict_set key v acc)) r'
                        else if (nat_of_ascii c' =? 44)%nat then
                          match skip_ws r' with
                          | EmptyString => Malformed
                          | String q r'' =>
                              if (nat_of_ascii q =? 34)%nat
                              then scan_members fuel' r'' (dict_set key v acc)
                              else Malformed
                          end
                        else Malformed
                    end
                | Malformed => Malformed
                | Unsupported => Unsupported
                end
              else Malformed
          end
      | Malformed => Malformed
      | Unsupported => Unsupported
      end
  end.

(** [json.loads] on the fragment: one value, white space around it and
    nothing else. *)
Definition json_loads_fragment (s : string) : outcome json :=
  if prefix (bytes [239; 187; 191]) s then
    Raise (Exn JSONDecodeError "Unexpected UTF-8 BOM (decode using utf-8-sig)")
  else
    match scan_value (2 * String.length s + 2) (skip_ws s) with
    | Scanned v rest =>
        match skip_ws rest with
        | EmptyString => Return v
        | String _ _ => Raise (Exn JSONDecodeError "Extra data")
        end
    | Malformed => Raise (Exn JSONDecodeError "Expecting value")
    | Unsupported =>
        Raise (Exn (OtherException "NotImplementedError") "outside the decoded fragment")
    end.

(** ** The application *)

Definition TAB_NAMES : list string := ["Summary"; "Actions"; "Decisions"; "Risks"].

Definition _blank_minutes : pydict :=
  [ ("summary", JStr "");
    ("key_points", JArr []);
    ("decisions", JArr []);
    ("action_items", JArr []);
    ("risks_open_questions", JArr []) ].

(** The five fields of a Minutes record, in the order of the template. *)
Definition minutes_fields : list string :=
  ["summary"; "key_points"; "decisions"; "action_items"; "risks_open_questions"].

Definition quoted (s : string) : string := dq ++ s ++ dq.

Definition system_instruction : string :=
  "You are an AI meeting assistant. Read the meeting transcript and "
  ++ "produce ONLY a JSON object with this schema:" ++ nl
  ++ "{" ++ nl
  ++ "  " ++ quoted "summary" ++ ": " ++ quoted "short paragraph" ++ "," ++ nl
  ++ "  " ++ quoted "key_points" ++ ": [" ++ quoted "point 1" ++ ", "
          ++ quoted "point 2" ++ "]," ++ nl
  ++ "  " ++ quoted "decisions" ++ ": [" ++ quoted "decision 1" ++ ", "
          ++ quoted "decision 2" ++ "]," ++ nl
  ++ "  " ++ quoted "action_items" ++ ": [" ++ nl
  ++ "    {" ++ nl
  ++ "      " ++ quoted "owner" ++ ": " ++ quoted "Name" ++ "," ++ nl
  ++ "      " ++ quoted "task" ++ ": " ++ quoted "what to do" ++ "," ++ nl
  ++ "      " ++ quoted "due" ++ ": " ++ quoted "deadline or empty string" ++ "," ++ nl
  ++ "      " ++ quoted "priority" ++ ": " ++ quoted "High | Medium | Low" ++ nl
  ++ "    }" ++ nl
  ++ "  ]," ++ nl
  ++ "  " ++ quoted "risks_open_questions" ++ ": [" ++ nl
  ++ "    " ++ quoted "risk or open question 1" ++ "," ++ nl
  ++ "    " ++ quoted "risk or open question 2" ++ nl
  ++ "  ]" ++ nl
  ++ "}" ++ nl
  ++ "Rules:" ++ nl
  ++ "1) Always return valid JSON." ++ nl
  ++ "2) Do not include any extra text before or after the JSON." ++ nl
  ++ "3) Infer reasonable owners, due dates (or " ++ quoted "" ++ " if none), and priorities "
  ++ "for the action_items based on the transcript." ++ nl
  ++ "4) Include both risks and open questions together in 'risks_open_questions'.".

(** ** Rendering

    What a block of the page writes with [st.markdown], each body with the
    index of the tab it goes to, and how the block ends. *)

Definition R (A : Type) : Type := outcome A * list (nat * string).

Definition r_ret {A : Type} (a : A) : R A := (Return a, []).

Definition r_bind {A B : Type} (m : R A) (f : A -> R B) : R B :=
  match m with
  | (Return a, written) => let '(o, written') := f a in (o, (written ++ written')%list)
  | (Raise e, written) => (Raise e, written)
  end.

Definition r_lift {A : Type} (o : outcome A) : R A := (o, []).

(** [st.markdown(body, unsafe_allow_html=True)] inside [with tabs[tab]:]. *)
Definition markdown (tab : nat) (body : string) : R unit := (Return tt, [(tab, body)]).

Declare Scope render_scope.
Delimit Scope render_scope with render.
Notation "x <- m ;; k" := (r_bind m (fun x => k))
  (at level 61, m at next level, right associativity) : render_scope.
Notation "m ;; k" := (r_bind m (fun _ => k))
  (at level 61, right associativity) : render_scope.

(** [value.get(k, default)] for a value that may be no dictionary. *)
Definition value_get (value : json) (k : string) (default : json) : outcome json :=
  match value with
  | JObj d => Return (dict_get_default k default d)
  | _ => Raise (Exn AttributeError
                  ("'" ++ type_name value ++ "' object has no attribute 'get'"))
  end.

(** A byte that continues a code point in UTF-8. *)
Definition continuation (c : ascii) : bool :=
  let n := nat_of_ascii c in ((128 <=? n) && (n <? 192))%nat.

(** The characters of a text, each with all its bytes. *)
Fixpoint chars (s : string) : list string :=
  match s with
  | EmptyString => []
  | String c r =>
      let cs := chars r in
      match r with
      | EmptyString => String c EmptyString :: cs
      | String c' _ =>
          if continuation c' then
            match cs with
            | chunk :: rest => String c chunk :: rest
            | [] => [String c EmptyString]
            end
          else String c EmptyString :: cs
      end
  end.

(** [for x in value]: the items of a list, the keys of a dictionary, the
    characters of a text; nothing else can be iterated. *)
Definition py_iter (value : json) : outcome (list json) :=
  match value with
  | JArr items => Return items
  | JObj d => Return (map JStr (dict_keys d))
  | JStr s => Return (map JStr (chars s))
  | _ => Raise (Exn TypeError ("'" ++ type_name value ++ "' object is not iterable"))
  end.

(** [[f(x) for x in l]]: the first call that raises ends the comprehension. *)
Fixpoint map_outcome {A B : Type} (f : A -> outcome B) (l : list A) : outcome (list B) :=
  match l with
  | [] => Return []
  | x :: rest =>
      match f x with
      | Raise e => Raise e
      | Return y =>
          match map_outcome f rest with
          | Raise e => Raise e
          | Return ys => Return (y :: ys)
          end
      end
  end.

(** The number of requests among some events. *)
Definition network_calls (evs : list event) : nat :=
  List.length (filter is_network_call evs).

(** ** Sample services

    Concrete clients, credential sources and sessions, to run the
    application on. *)

Definition answering (text : string) : client := Client (fun _ _ _ => Return text).

Definition failing (e : exn) : client := Client (fun _ _ _ => Raise e).

Definition client_for (c : client) : string -> outcome client := fun _ => Return c.

Definition service_unavailable : exn :=
  Exn (OtherException "ServerError") "503 UNAVAILABLE".

Definition no_secrets : string -> outcome string :=
  fun _ => Raise (Exn (OtherException "StreamlitSecretNotFoundError") "No secrets found.").

Definition secrets_with (key : string) : string -> outcome string :=
  fun name =>
    if String.eqb name "GEMINI_API_KEY" then Return key
    else Raise (Exn KeyError ("'" ++ name ++ "'")).

Definition empty_environment : string -> option string := fun _ => None.

Definition environment_with (key : string) : string -> option string :=
  fun name => if String.eqb name "GEMINI_API_KEY" then Some key else None.

(** The printed form of lists and dictionaries, left out. *)
Definition elided_repr : json -> string := fun _ => "[...]".

(** A session after [init_session_state], and one that holds minutes. *)
Definition started_session : world :=
  World [("minutes", JObj _blank_minutes); ("raw_json", JStr ""); ("raw_response", JStr "")] [].

Definition scenario_transcript : string :=
  "Alice: let's ship v2 by Friday. Bob: I'll write the release notes.".

Definition scenario_reply : string :=
  "{" ++ quoted "summary" ++ ":" ++ quoted "Team planned v2 release." ++ ","
      ++ quoted "action_items" ++ ":[{"
      ++ quoted "owner" ++ ":" ++ quoted "Bob" ++ ","
      ++ quoted "task" ++ ":" ++ quoted "Write release notes" ++ ","
      ++ quoted "due" ++ ":" ++ quoted "Friday" ++ ","
      ++ quoted "priority" ++ ":" ++ quoted "Medium" ++ "}]}".

Definition scenario_item : pydict :=
  [("owner", JStr "Bob"); ("task", JStr "Write release notes");
   ("due", JStr "Friday"); ("priority", JStr "Medium")].

Definition scenario_parsed : pydict :=
  [("summary", JStr "Team planned v2 release."); ("action_items", JArr [JObj scenario_item])].

Definition scenario_minutes : pydict :=
  [ ("summary", JStr "Team planned v2 release.");
    ("key_points", JArr []);
    ("decisions", JArr []);
    ("action_items", JArr [JObj scenario_item]);
    ("risks_open_questions", JArr []) ].

Definition busy_session : world :=
  World [("minutes", JObj scenario_minutes);
         ("raw_json", JStr (json_dumps 2 (JObj scenario_minutes)));
         ("raw_response", JStr "")]
        [StSuccess "Minutes generated successfully!"].

Definition no_client (e : exn) : string -> outcome client := fun _ => Raise e.

(** A reply with a key that is no Minutes field, one with a key
    [raw_response], and minutes whose action items are no dictionaries. *)
Definition extended_reply : string :=
  "{" ++ quoted "summary" ++ ": " ++ quoted "Kick-off" ++ ", "
      ++ quoted "attendees" ++ ": [" ++ quoted "Ann" ++ "]}".

Definition extended_parsed : pydict :=
  [("summary", JStr "Kick-off"); ("attendees", JArr [JStr "Ann"])].

Definition echo_reply : string :=
  "{" ++ quoted "raw_response" ++ ": " ++ quoted "copied" ++ ", "
      ++ quoted "summary" ++ ": " ++ quoted "Short" ++ "}".

Definition echo_parsed : pydict :=
  [("raw_response", JStr "copied"); ("summary", JStr "Short")].

Definition stuck_minutes : pydict :=
  [ ("summary", JStr "Plan");
    ("key_points", JArr []);
    ("decisions", JArr []);
    ("action_items", JArr [JStr "Call Bob"]);
    ("risks_open_questions", JArr []) ].

Definition stuck_session : world :=
  World [("minutes", JObj stuck_minutes);
         ("raw_json", JStr (json_dumps 2 (JObj stuck_minutes)));
         ("raw_response", JStr "")]
        [].

Definition null_item : pydict :=
  [("owner", JNull); ("task", JStr "Send notes"); ("due", JNull); ("priority", JNull)].

(** The file the download button offers for the minutes of the scenario,
    and minutes with accented letters and a dash together with their file. *)
Definition scenario_file : string :=
  "{" ++ nl ++
  "  " ++ quoted "summary" ++ ": " ++ quoted "Team planned v2 release." ++ "," ++ nl ++
  "  " ++ quoted "key_points" ++ ": []," ++ nl ++
  "  " ++ quoted "decisions" ++ ": []," ++ nl ++
  "  " ++ quoted "action_items" ++ ": [" ++ nl ++
  "    {" ++ nl ++
  "      " ++ quoted "owner" ++ ": " ++ quoted "Bob" ++ "," ++ nl ++
  "      " ++ quoted "task" ++ ": " ++ quoted "Write release notes" ++ "," ++ nl ++
  "      " ++ quoted "due" ++ ": " ++ quoted "Friday" ++ "," ++ nl ++
  "      " ++ quoted "priority" ++ ": " ++ quoted "Medium" ++ nl ++
  "    }" ++ nl ++
  "  ]," ++ nl ++
  "  " ++ quoted "risks_open_questions" ++ ": []" ++ nl ++
  "}".

Definition accented_minutes : pydict :=
  [ ("summary", JStr "Café — Zoë présente le plan");
    ("key_points", JArr [JStr "naïve"; JStr "日本語"]);
    ("decisions", JArr []);
    ("action_items", JArr []);
    ("risks_open_questions", JArr []) ].

Definition accented_session : world :=
  World [("minutes", JObj accented_minutes); ("raw_json", JStr ""); ("raw_response", JStr "")]
        [].

Definition accented_file : string :=
  "{" ++ nl ++
  "  " ++ quoted "summary" ++ ": " ++ quoted "Café — Zoë présente le plan" ++ "," ++ nl ++
  "  " ++ quoted "key_points" ++ ": [" ++ nl ++
  "    " ++ quoted "naïve" ++ "," ++ nl ++
  "    " ++ quoted "日本語" ++ nl ++
  "  ]," ++ nl ++
  "  " ++ quoted "decisions" ++ ": []," ++ nl ++
  "  " ++ quoted "action_items" ++ ": []," ++ nl ++
  "  " ++ quoted "risks_open_questions" ++ ": []" ++ nl ++
  "}".

Section Application.

Set Default Proof Using "Type".

(** The world outside the program: the secrets store [st.secrets] (a lookup
    returns the stored text or raises), the process environment
    [os.getenv], the constructor [genai.Client], the decoder [json.loads]
    and [repr] on lists and dictionaries. *)
Variable secrets : string -> outcome string.
Variable getenv : string -> option string.
Variable genai_Client : string -> outcome client.
Variable json_loads : string -> outcome json.
Variable py_repr : json -> string.

(** [str(v)], as an f-string formats a value. *)
Definition py_str (v : json) : string :=
  match v with
  | JNull => "None"
  | JBool true => "True"
  | JBool false => "False"
  | JInt z => int_str z
  | JStr s => s
  | JArr _ | JObj _ => py_repr v
  end.

Definition load_api_key : outcome string :=
  let from_environment :=
    match getenv "GEMINI_API_KEY" with
    | Some api_key => if str_truthy api_key then Return api_key else Return ""
    | None => Return ""
    end in
  match secrets "GEMINI_API_KEY" with
  | Return api_key => if str_truthy api_key then Return api_key else from_environment
  | Raise e => if is_exception e then from_environment else Raise e
  end.

Definition get_genai_client (api_key : string) : M client :=
  if negb (str_truthy api_key) then
    raise (Exn ValueError
             ("No Gemini API key found. Use config.json, an environment variable, "
              ++ "or Streamlit secrets to provide GEMINI_API_KEY."))
  else lift (genai_Client api_key).

(** [{**_blank_minutes(), **parsed}]: only a mapping can be unpacked. *)
Definition merge_over_blank (parsed : json) : M pydict :=
  match parsed with
  | JObj members => ret (dict_merge _blank_minutes members)
  | _ => raise (Exn TypeError ("'" ++ type_name parsed ++ "' object is not a mapping"))
  end.

Definition summarize_meeting (c : client) (transcript : string) : M pydict :=
  raw_text <- call_generate_content c "gemini-2.5-flash"
                [system_instruction; "Meeting transcript:" ++ nl ++ transcript]
                "application/json" ;;
  try_except is_json_decode_error
    (parsed <- lift (json_loads raw_text) ;;
     merge_over_blank parsed)
    (fun _ => ret [("raw_response", JStr raw_text)]).

Definition format_action_item (item : pydict) : string :=
  let owner := dict_get_default "owner" (JStr "Unassigned") item in
  let task := dict_get_default "task" (JStr "Task not specified") item in
  let due := dict_get_default "due" JNull item in
  let priority := dict_get_default "priority" JNull item in
  let parts := ["**" ++ py_str owner ++ "** — " ++ py_str task] in
  let parts := if truthy due then list_append parts ("**Due:** " ++ py_str due) else parts in
  let parts :=
    if truthy priority then list_append parts ("**Priority:** " ++ py_str priority) else parts in
  join " | " parts.

(** Lines 213-218: the keys a new session lacks are given their empty values. *)
Definition init_session_state : M unit :=
  has_minutes <- in_state "minutes" ;;
  (if negb has_minutes then set_state "minutes" (JObj _blank_minutes) else ret tt) ;;
  has_raw_json <- in_state "raw_json" ;;
  (if negb has_raw_json then set_state "raw_json" (JStr "") else ret tt) ;;
  has_raw_response <- in_state "raw_response" ;;
  (if negb has_raw_response then set_state "raw_response" (JStr "") else ret tt).

(** Lines 225-250: the body of [if generate_clicked:]. *)
Definition generation_handler (transcript api_key : string) : M unit :=
  if negb (str_truthy (strip transcript)) then
    emit (StWarning "Please provide a transcript before generating minutes.")
  else if negb (str_truthy api_key) then
    emit (StError ("No Gemini API key found. Provide it via config.json, the environment, "
                   ++ "or Streamlit secrets."))
  else
    emit (StSpinner "Analyzing meeting...") ;;
    try_except is_exception
      (c <- get_genai_client api_key ;;
       summary <- summarize_meeting c (strip transcript) ;;
       if dict_mem "raw_response" summary then
         emit (StError "Model returned malformed JSON. See raw output below.") ;;
         set_state "raw_response" (dict_get_default "raw_response" JNull summary) ;;
         set_state "raw_json" (JStr "")
       else
         set_state "minutes" (JObj summary) ;;
         set_state "raw_json" (JStr (json_dumps 2 (JObj summary))) ;;
         set_state "raw_response" (JStr "") ;;
         emit (StSuccess "Minutes generated successfully!"))
      (fun exc => emit (StError ("Failed to generate minutes: " ++ exn_str exc))).

(** Lines 220-250: the key is resolved on every run of the page, the
    handler runs when the button was pressed. *)
Definition generate_section (generate_clicked : bool) (transcript : string) : M unit :=
  api_key <- lift load_api_key ;;
  if generate_clicked then generation_handler transcript api_key else ret tt.

(** Lines 320-325. *)
Definition copy_section (copy_clicked : bool) : M unit :=
  if copy_clicked then
    raw_json <- get_state "raw_json" ;;
    if truthy raw_json then emit (StCode raw_json "json")
    else emit (StInfo "Generate minutes first to view JSON.")
  else ret tt.

(** Lines 327-337. *)
Definition download_section : M unit :=
  minutes <- get_state "minutes" ;;
  let data := json_dumps 2 minutes in
  summary <- method_get minutes "summary" ;;
  action_items <- method_get minutes "action_items" ;;
  emit (StDownloadButton "⬇️ Download JSON" data "minutes.json" "application/json"
          (negb (truthy summary) && negb (truthy action_items))).

(** Lines 339-344. *)
Definition clear_section (clear_clicked : bool) : M unit :=
  if clear_clicked then
    set_state "minutes" (JObj _blank_minutes) ;;
    set_state "raw_json" (JStr "") ;;
    set_state "raw_response" (JStr "") ;;
    emit StRerun
  else ret tt.

(** Lines 348-350. *)
Definition raw_output_section : M unit :=
  raw_response <- get_state "raw_response" ;;
  if truthy raw_response then
    emit (StExpander "Model raw output") ;;
    emit (StCode raw_response "json")
  else ret tt.

(** ** The four tabs (lines 252-315) and the page *)

Definition bullet_list (lines : list string) : string :=
  "<ul style='margin-top: 1em; color: #555;'>" ++ join "" lines ++ "</ul>".

Definition placeholder (text : string) : string :=
  "<div style='color: #bbb; margin-top: 1em;'>" ++ text ++ "</div>".

(** [f"<li>{value}</li>"]. *)
Definition list_item (value : json) : string := "<li>" ++ py_str value ++ "</li>".

(** [f"<li>{format_action_item(item)}</li>"]: [item.get] exists on a
    dictionary only. *)
Definition action_line (item : json) : outcome string :=
  match item with
  | JObj d => Return ("<li>" ++ format_action_item d ++ "</li>")
  | _ => Raise (Exn AttributeError
                  ("'" ++ type_name item ++ "' object has no attribute 'get'"))
  end.

(** Lines 254-270. *)
Definition summary_tab (w : world) : R unit :=
  (minutes <- r_lift (fst (get_state "minutes" w)) ;;
   summary_text <- r_lift (value_get minutes "summary" (JStr "")) ;;
   key_points <- r_lift (value_get minutes "key_points" (JArr [])) ;;
   (if truthy summary_text
    then markdown 0 ("<p style='color:#333;'>" ++ py_str summary_text ++ "</p>")
    else r_ret tt) ;;
   (if truthy key_points then
      points <- r_lift (py_iter key_points) ;;
      markdown 0 (bullet_list (map list_item points))
    else r_ret tt) ;;
   if negb (truthy summary_text) && negb (truthy key_points)
   then markdown 0 (placeholder "No data to display.")
   else r_ret tt)%render.

(** Lines 272-285. *)
Definition actions_tab (w : world) : R unit :=
  (minutes <- r_lift (fst (get_state "minutes" w)) ;;
   actions <- r_lift (value_get minutes "action_items" (JArr [])) ;;
   if truthy actions then
     items <- r_lift (py_iter actions) ;;
     lines <- r_lift (map_outcome action_line items) ;;
     markdown 1 (bullet_list lines)
   else markdown 1 (placeholder "No action items to display."))%render.

(** Lines 287-300 and 302-315: the two tabs differ by the field and the
    text shown for an empty one. *)
Definition list_tab (tab : nat) (field empty_text : string) (w : world) : R unit :=
  (minutes <- r_lift (fst (get_state "minutes" w)) ;;
   entries <- r_lift (value_get minutes field (JArr [])) ;;
   if truthy entries then
     values <- r_lift (py_iter entries) ;;
     markdown tab (bullet_list (map list_item values))
   else markdown tab (placeholder empty_text))%render.

Definition decisions_tab : world -> R unit :=
  list_tab 2 "decisions" "No decisions to display.".

Definition risks_tab : world -> R unit :=
  list_tab 3 "risks_open_questions" "No risks or open questions to display.".

Definition render_tabs (w : world) : R unit :=
  (summary_tab w ;; actions_tab w ;; decisions_tab w ;; risks_tab w)%render.

(** Lines 213-350, one run of the page on the widgets' values: the session
    is initialised, the generation handler runs, the tabs are drawn, then
    the three buttons and the raw output.  An exception ends the run where
    it is raised, and so does the rerun the clear button asks for.  The
    fixed markup around these blocks is left out. *)
Definition page_body (generate_clicked copy_clicked clear_clicked : bool)
    (transcript : string) (w : world) : (outcome unit * world) * list (nat * string) :=
  match (init_session_state ;; generate_section generate_clicked transcript) w with
  | (Raise e, w1) => ((Raise e, w1), [])
  | (Return _, w1) =>
      match render_tabs w1 with
      | (Raise e, markup) => ((Raise e, w1), markup)
      | (Return _, markup) =>
          ((copy_section copy_clicked ;;
            download_section ;;
            clear_section clear_clicked ;;
            if clear_clicked then ret tt else raw_output_section) w1,
           markup)
      end
  end.

(** ** Notions used to state the properties *)

(** The answer of the service to the request [summarize_meeting] sends. *)
Definition reply (c : client) (transcript : string) : outcome string :=
  generate_content c "gemini-2.5-flash"
    [system_instruction; "Meeting transcript:" ++ nl ++ transcript] "application/json".

(** The event that request leaves in the trace. *)
Definition request_event (transcript : string) : event :=
  GenerateContent "gemini-2.5-flash"
    [system_instruction; "Meeting transcript:" ++ nl ++ transcript] "application/json".

(** The world [w] after the events [evs], the store untouched. *)
Definition after_events (w : world) (evs : list event) : world :=
  World (session_state w) (trace w ++ evs)%list.

(** What a credential source yields: a raising lookup yields nothing. *)
Definition found (o : outcome string) : option string :=
  match o with
  | Return s => Some s
  | Raise _ => None
  end.

(** Following the specification's words: the first non-empty text among the
    sources in priority order, the empty text when there is none. *)
Fixpoint first_non_empty (sources : list (option string)) : string :=
  match sources with
  | [] => ""
  | Some s :: rest => if str_truthy s then s else first_non_empty rest
  | None :: rest => first_non_empty rest
  end.

(** Following the specification's words: the empty default of a Minutes
    field, the empty text for [summary] and the empty list for the others. *)
Definition empty_default (field : string) : json :=
  if String.eqb field "summary" then JStr "" else JArr [].

(** [d1 == d2] on dictionaries: the same keys with the same values, in
    whatever order. *)
Definition dict_eq (d1 d2 : pydict) : Prop :=
  Permutation (dict_keys d1) (dict_keys d2) /\
  forall k, dict_get k d1 = dict_get k d2.

(** The parts of a formatted action item after the owner and the task. *)
Definition optional_parts (item : pydict) : string :=
  let due := dict_get_default "due" JNull item in
  let priority := dict_get_default "priority" JNull item in
  (if truthy due then " | **Due:** " ++ py_str due else "")
  ++ (if truthy priority then " | **Priority:** " ++ py_str priority else "").

(** What [{**_blank_minutes(), **parsed}] raises on a value that is no mapping. *)
Definition not_a_mapping (v : json) : exn :=
  Exn TypeError ("'" ++ type_name v ++ "' object is not a mapping").

(** The messages of the generation handler. *)
Definition spinner_event : event := StSpinner "Analyzing meeting...".

Definition failure_event (e : exn) : event :=
  StError ("Failed to generate minutes: " ++ exn_str e).

Definition no_transcript_event : event :=
  StWarning "Please provide a transcript before generating minutes.".

Definition no_key_event : event :=
  StError ("No Gemini API key found. Provide it via config.json, the environment, "
           ++ "or Streamlit secrets.").

(** The session as the page keeps it: the minutes are a dictionary with
    the five fields, the stored JSON is a text, the raw output is there. *)
Definition session_ready (w : world) : Prop :=
  exists minutes raw_json,
    dict_get "minutes" (session_state w) = Some (JObj minutes) /\
    Forall (fun field => dict_mem field minutes = true) minutes_fields /\
    dict_get "raw_json" (session_state w) = Some (JStr raw_json) /\
    dict_mem "raw_response" (session_state w) = true.

(** The store after a successful generation. *)
Definition store_minutes (summary : pydict) (store : pydict) : pydict :=
  dict_set "raw_response" (JStr "")
    (dict_set "raw_json" (JStr (json_dumps 2 (JObj summary)))
       (dict_set "minutes" (JObj summary) store)).

(** The store after a reply taken for malformed. *)
Definition store_raw_response (raw : json) (store : pydict) : pydict :=
  dict_set "raw_json" (JStr "") (dict_set "raw_response" raw store).

Definition malformed_event : event :=
  StError "Model returned malformed JSON. See raw output below.".

Definition success_event : event := StSuccess "Minutes generated successfully!".

(** [if k not in store: store[k] = v]. *)
Definition set_missing (k : string) (v : json) (store : pydict) : pydict :=
  if dict_mem k store then store else dict_set k v store.

(** The store after [init_session_state]. *)
Definition initialised (store : pydict) : pydict :=
  set_missing "raw_response" (JStr "")
    (set_missing "raw_json" (JStr "")
       (set_missing "minutes" (JObj _blank_minutes) store)).

Definition is_object (v : json) : bool :=
  match v with
  | JObj _ => true
  | _ => false
  end.

(** A value that a tab can list: one that Python takes for false, or a
    list, a dictionary or a text. *)
Definition listable (v : json) : bool :=
  negb (truthy v) ||
  match v with
  | JArr _ | JObj _ | JStr _ => true
  | _ => false
  end.

(** Action items that the second tab can list: a value that Python takes
    for false, or a list of dictionaries. *)
Definition actions_listable (v : json) : bool :=
  negb (truthy v) ||
  match v with
  | JArr items => forallb is_object items
  | _ => false
  end.

(** Minutes whose four list fields can all be drawn. *)
Definition renderable (minutes : pydict) : bool :=
  listable (dict_get_default "key_points" JNull minutes)
  && actions_listable (dict_get_default "action_items" JNull minutes)
  && listable (dict_get_default "decisions" JNull minutes)
  && listable (dict_get_default "risks_open_questions" JNull minutes).

(** Following the specification's words: the file is the record
    pretty-printed with two-space indentation, non-ASCII characters
    preserved literally.  The text is described line by line: a line has
    a nesting depth and is written after two spaces for each level of
    that depth. *)
Definition indentation (depth : nat) : string :=
  String.concat "" (repeat "  " depth).

(** The characters JSON writes with a backslash and a letter. *)
Definition short_escapes : list (nat * string) :=
  [ (34, "\" ++ dq); (92, "\\"); (8, "\b"); (9, "\t"); (10, "\n"); (12, "\f"); (13, "\r") ].

Fixpoint short_escape (code : nat) (table : list (nat * string)) : option string :=
  match table with
  | [] => None
  | (code', written) :: rest =>
      if (code =? code')%nat then Some written else short_escape code rest
  end.

(** A character of a text as the file has it: the quote, the backslash
    and the control characters are escaped, every other byte, and so every
    byte of a non-ASCII character, is copied. *)
Definition reference_char (c : ascii) : string :=
  let code := nat_of_ascii c in
  match short_escape code short_escapes with
  | Some written => written
  | None =>
      if (code <? 32)%nat then
        "\u00" ++ (if (code <? 16)%nat then "0" else "1")
               ++ match String.get (code mod 16) "0123456789abcdef" with
                  | Some digit => String digit EmptyString
                  | None => EmptyString
                  end
      else String c EmptyString
  end.

Definition reference_text (s : string) : string :=
  dq ++ String.concat "" (map reference_char (list_ascii_of_string s)) ++ dq.

(** [p] before the text of the first line, [s] after that of the last. *)
Definition first_with (p : string) (lines : list (nat * string)) : list (nat * string) :=
  match lines with
  | [] => []
  | (depth, text) :: rest => (depth, p ++ text) :: rest
  end.

Fixpoint last_with (s : string) (lines : list (nat * string)) : list (nat * string) :=
  match lines with
  | [] => []
  | (depth, text) :: [] => [(depth, text ++ s)]
  | l :: rest => l :: last_with s rest
  end.

(** The lines of several entries, a comma after each entry but the last. *)
Fixpoint separated (blocks : list (list (nat * string))) : list (nat * string) :=
  match blocks with
  | [] => []
  | block :: [] => block
  | block :: rest => (last_with "," block ++ separated rest)%list
  end.

(** The lines of a value at a nesting depth: a scalar, an empty list or
    an empty object is one line; a list or an object opens on a line,
    has each entry on lines one level deeper, and closes on a line of its
    own depth; a member starts with its key and a colon. *)
Fixpoint layout (depth : nat) (v : json) : list (nat * string) :=
  match v with
  | JNull => [(depth, "null")]
  | JBool true => [(depth, "true")]
  | JBool false => [(depth, "false")]
  | JInt z => [(depth, int_str z)]
  | JStr s => [(depth, reference_text s)]
  | JArr [] => [(depth, "[]")]
  | JArr items =>
      ((depth, "[") :: separated (map (layout (S depth)) items) ++ [(depth, "]")])%list
  | JObj [] => [(depth, "{}")]
  | JObj members =>
      ((depth, "{")
       :: separated (map (fun kv => let '(k, x) := kv in
                                    first_with (reference_text k ++ ": ") (layout (S depth) x))
                         members)
       ++ [(depth, "}")])%list
  end.

Definition written_line (l : nat * string) : string := indentation (fst l) ++ snd l.

(** The lines that follow a first one, each after a line end. *)
Definition continued (lines : list (nat * string)) : string :=
  String.concat "" (map (fun l => nl ++ written_line l) lines).

(** A byte that is copied: one of a non-ASCII character, or an ASCII
    character that is no control character, quote or backslash. *)
Definition plain_byte (c : ascii) : Prop :=
  128 <= nat_of_ascii c \/
  (32 <= nat_of_ascii c /\ nat_of_ascii c <> 34 /\ nat_of_ascii c <> 92).

(** ** Dictionaries *)

(** The facts on dictionaries and texts hold whatever the outside world is. *)
Ltac world_free := clear secrets getenv genai_Client json_loads py_repr.

Lemma dict_get_set_same (k : string) (v : json) (d : pydict) :
  dict_get k (dict_set k v d) = Some v.
Proof.
  induction d as [|[k' v'] rest IH]; simpl.
  - now rewrite String.eqb_refl.
  - destruct (String.eqb k k') eqn:E; simpl; rewrite E; auto.
Qed.

Lemma dict_get_set_other (k k' : string) (v : json) (d : pydict) :
  k <> k' -> dict_get k' (dict_set k v d) = dict_get k' d.
Proof.
  intros Hne. induction d as [|[k0 v0] rest IH]; simpl.
  - destruct (String.eqb_spec k' k); congruence.
  - destruct (String.eqb_spec k k0) as [->|Hk]; simpl.
    + destruct (String.eqb_spec k' k0); congruence.
    + now rewrite IH.
Qed.

Lemma dict_get_None_keys (k : string) (d : pydict) :
  dict_get k d = None <-> ~ In k (dict_keys d).
Proof.
  world_free.
  induction d as [|[k' v'] rest IH]; simpl.
  - tauto.
  - destruct (String.eqb_spec k k') as [->|Hk].
    + split; [discriminate | intros H; exfalso; apply H; now left].
    + rewrite IH. split; intros H; [intros [E|I]; [congruence | tauto] | tauto].
Qed.

Lemma dict_mem_keys (k : string) (d : pydict) :
  dict_mem k d = true <-> In k (dict_keys d).
Proof.
  world_free.
  unfold dict_mem. destruct (dict_get k d) eqn:E.
  - split; [intros _ | reflexivity].
    destruct (in_dec string_dec k (dict_keys d)) as [I|N]; [exact I|].
    apply dict_get_None_keys in N. congruence.
  - split; [discriminate|]. intros I. apply dict_get_None_keys in E. tauto.
Qed.

Lemma dict_keys_set_present (k : string) (v : json) (d : pydict) :
  In k (dict_keys d) -> dict_keys (dict_set k v d) = dict_keys d.
Proof.
  world_free.
  induction d as [|[k' v'] rest IH]; simpl; [tauto|].
  intros [E|I]; destruct (String.eqb_spec k k'); subst; simpl; try congruence.
  now rewrite IH.
Qed.

Lemma dict_keys_set_absent (k : string) (v : json) (d : pydict) :
  ~ In k (dict_keys d) -> dict_keys (dict_set k v d) = (dict_keys d ++ [k])%list.
Proof.
  world_free.
  induction d as [|[k' v'] rest IH]; simpl; [reflexivity|].
  intros N. destruct (String.eqb_spec k k') as [->|Hk]; [tauto|].
  simpl. rewrite IH; tauto.
Qed.

(** A lookup in [{**a, **b}] finds the value of [b] when [b] has the key
    and the value of [a] otherwise. *)
Lemma dict_get_merge (k : string) (b : pydict) :
  NoDup (dict_keys b) ->
  forall a, dict_get k (dict_merge a b) =
            match dict_get k b with
            | Some v => Some v
            | None => dict_get k a
            end.
Proof.
  unfold dict_merge.
  induction b as [|[k1 v1] rest IH]; simpl; intros Hnd a; [reflexivity|].
  inversion Hnd as [|? ? Hnotin Hnd']; subst.
  rewrite (IH Hnd').
  destruct (String.eqb_spec k k1) as [->|Hk].
  - apply dict_get_None_keys in Hnotin. rewrite Hnotin. apply dict_get_set_same.
  - destruct (dict_get k rest); [reflexivity|].
    apply dict_get_set_other. congruence.
Qed.

(** Merging keys that [a] already has leaves the keys of [a] as they are. *)
Lemma dict_keys_merge_within (b a : pydict) :
  (forall k, In k (dict_keys b) -> In k (dict_keys a)) ->
  dict_keys (dict_merge a b) = dict_keys a.
Proof.
  unfold dict_merge. revert a.
  induction b as [|[k1 v1] rest IH]; simpl; intros a Hsub; [reflexivity|].
  rewrite IH.
  - apply dict_keys_set_present. apply Hsub. now left.
  - intros k Hk. rewrite dict_keys_set_present by (apply Hsub; now left).
    apply Hsub. now right.
Qed.

(** ** The minutes generator *)

(** Every run of [summarize_meeting], by the answer of the service and the
    verdict of the decoder. *)
Lemma summarize_meeting_run (c : client) (transcript : string) (w : world) :
  summarize_meeting c transcript w =
  let w' := after_events w [request_event transcript] in
  match reply c transcript with
  | Raise e => (Raise e, w')
  | Return raw_text =>
      match json_loads raw_text with
      | Return (JObj members) => (Return (dict_merge _blank_minutes members), w')
      | Return v => (Raise (not_a_mapping v), w')
      | Raise e =>
          if is_json_decode_error e then (Return [("raw_response", JStr raw_text)], w')
          else (Raise e, w')
      end
  end.
Proof.
  unfold summarize_meeting, call_generate_content, try_except, bind, emit, lift.
  cbn [fst snd]. fold (reply c transcript). fold (request_event transcript).
  unfold after_events.
  destruct (reply c transcript) as [raw|e]; [|reflexivity].
  destruct (json_loads raw) as [v|e]; [|reflexivity].
  destruct v; reflexivity.
Qed.

Lemma minutes_fields_NoDup : NoDup minutes_fields.
Proof.
  world_free.
  unfold minutes_fields.
  repeat (constructor; [simpl; intuition discriminate|]). constructor.
Qed.

Lemma blank_minutes_keys : dict_keys _blank_minutes = minutes_fields.
Proof. reflexivity. Qed.

Lemma blank_minutes_defaults (k : string) :
  In k minutes_fields -> dict_get k _blank_minutes = Some (empty_default k).
Proof.
  unfold minutes_fields. simpl.
  intros [<-|[<-|[<-|[<-|[<-|[]]]]]]; reflexivity.
Qed.

(** C1. When the response decodes to a JSON object whose keys are among the
    five Minutes fields, [summarize_meeting] returns a dictionary with
    exactly the five fields; a field the object lacks has its empty default
    (the empty text for [summary], the empty list for the others), a field
    the object has keeps the object's value, and an object that has all
    five fields is returned as it is (equal as a dictionary). *)
Theorem summarize_meeting_fills_defaults
    (c : client) (transcript raw_text : string) (parsed : pydict) (w : world) :
  reply c transcript = Return raw_text ->
  json_loads raw_text = Return (JObj parsed) ->
  NoDup (dict_keys parsed) ->
  (forall k, In k (dict_keys parsed) -> In k minutes_fields) ->
  exists result,
    summarize_meeting c transcript w
      = (Return result, after_events w [request_event transcript]) /\
    dict_keys result = minutes_fields /\
    (forall k, In k minutes_fields -> dict_get k parsed = None ->
               dict_get k result = Some (empty_default k)) /\
    (forall k v, dict_get k parsed = Some v -> dict_get k result = Some v) /\
    ((forall k, In k minutes_fields -> In k (dict_keys parsed)) -> dict_eq result parsed).
Proof.
  intros Hreply Hloads Hnd Hsub.
  exists (dict_merge _blank_minutes parsed).
  assert (Hkeys : dict_keys (dict_merge _blank_minutes parsed) = minutes_fields).
  { rewrite dict_keys_merge_within; [reflexivity | exact Hsub]. }
  split; [|split; [exact Hkeys|split; [|split]]].
  - rewrite summarize_meeting_run, Hreply. cbn zeta. now rewrite Hloads.
  - intros k Hk Hnone. rewrite (dict_get_merge k parsed Hnd), Hnone.
    now apply blank_minutes_defaults.
  - intros k v Hsome. now rewrite (dict_get_merge k parsed Hnd), Hsome.
  - intros Hall. split.
    + rewrite Hkeys. apply NoDup_Permutation; [|exact Hnd|].
      * exact minutes_fields_NoDup.
      * intros k. split; [apply Hall | apply Hsub].
    + intros k. rewrite (dict_get_merge k parsed Hnd).
      destruct (dict_get k parsed) eqn:E; [reflexivity|].
      apply dict_get_None_keys in E.
      apply dict_get_None_keys. rewrite blank_minutes_keys. intros I. apply E, Hall, I.
Qed.

(** C3. When the response is not valid JSON, [summarize_meeting] returns the
    dictionary whose only key is [raw_response], bound to the response text
    itself. *)
Theorem summarize_meeting_raw_fallback
    (c : client) (transcript raw_text : string) (e : exn) (w : world) :
  reply c transcript = Return raw_text ->
  json_loads raw_text = Raise e ->
  is_json_decode_error e = true ->
  exists result,
    summarize_meeting c transcript w
      = (Return result, after_events w [request_event transcript]) /\
    dict_keys result = ["raw_response"] /\
    dict_get "raw_response" result = Some (JStr raw_text).
Proof.
  intros Hreply Hloads Hdecode.
  exists [("raw_response", JStr raw_text)].
  rewrite summarize_meeting_run, Hreply. cbn zeta. rewrite Hloads, Hdecode.
  repeat split.
Qed.

(** ** The generation handler *)

Lemma after_events_app (w : world) (evs1 evs2 : list event) :
  after_events (after_events w evs1) evs2 = after_events w (evs1 ++ evs2)%list.
Proof. unfold after_events. simpl. now rewrite app_assoc. Qed.

Lemma emit_run (ev : event) (w : world) : emit ev w = (Return tt, after_events w [ev]).
Proof. reflexivity. Qed.

(** The handler stops at the first guard that fails. *)
Lemma generation_handler_no_transcript (transcript api_key : string) (w : world) :
  str_truthy (strip transcript) = false ->
  generation_handler transcript api_key w = (Return tt, after_events w [no_transcript_event]).
Proof. intros H. unfold generation_handler. now rewrite H. Qed.

Lemma generation_handler_no_key (transcript api_key : string) (w : world) :
  str_truthy (strip transcript) = true ->
  str_truthy api_key = false ->
  generation_handler transcript api_key w = (Return tt, after_events w [no_key_event]).
Proof. intros H1 H2. unfold generation_handler. now rewrite H1, H2. Qed.

(** An exception of the generator is caught and reported; the store is the
    one the handler started from. *)
Lemma generation_handler_generator_raises
    (transcript api_key : string) (c : client) (e : exn) (w : world) :
  str_truthy (strip transcript) = true ->
  str_truthy api_key = true ->
  genai_Client api_key = Return c ->
  (forall w0, summarize_meeting c (strip transcript) w0
              = (Raise e, after_events w0 [request_event (strip transcript)])) ->
  generation_handler transcript api_key w =
    (Return tt,
     after_events w [spinner_event; request_event (strip transcript); failure_event e]).
Proof.
  intros Ht Hk Hc Hraise. unfold generation_handler. rewrite Ht, Hk. cbn [negb].
  unfold bind at 1. rewrite emit_run.
  unfold try_except, bind, get_genai_client, lift. rewrite Hk, Hc. cbn [negb].
  rewrite Hraise. cbn [is_exception]. rewrite emit_run, !after_events_app.
  reflexivity.
Qed.

(** The same when the client cannot be built. *)
Lemma generation_handler_client_raises
    (transcript api_key : string) (e : exn) (w : world) :
  str_truthy (strip transcript) = true ->
  str_truthy api_key = true ->
  genai_Client api_key = Raise e ->
  generation_handler transcript api_key w =
    (Return tt, after_events w [spinner_event; failure_event e]).
Proof.
  intros Ht Hk Hc. unfold generation_handler. rewrite Ht, Hk. cbn [negb].
  unfold bind at 1. rewrite emit_run.
  unfold try_except, bind, get_genai_client, lift. rewrite Hk, Hc. cbn [negb is_exception].
  rewrite emit_run, !after_events_app. reflexivity.
Qed.

(** Whatever happens, the handler returns to the page: no exception leaves it. *)
Lemma generation_handler_returns (transcript api_key : string) (w : world) :
  fst (generation_handler transcript api_key w) = Return tt.
Proof.
  unfold generation_handler.
  destruct (str_truthy (strip transcript)); [|reflexivity].
  destruct (str_truthy api_key) eqn:Hk; [|reflexivity]. cbn [negb].
  unfold bind at 1. rewrite emit_run.
  unfold try_except, bind at 1, get_genai_client, lift. rewrite Hk. cbn [negb].
  destruct (genai_Client api_key) as [c|e]; [|reflexivity].
  unfold bind at 1. rewrite summarize_meeting_run. cbn zeta.
  destruct (reply c (strip transcript)) as [raw|e]; [|reflexivity].
  destruct (json_loads raw) as [v|e].
  - destruct v; try reflexivity.
    destruct (dict_mem "raw_response" (dict_merge _blank_minutes members)); reflexivity.
  - destruct (is_json_decode_error e); reflexivity.
Qed.

(** Past the two guards and with a client at hand, the request is sent:
    it is the second event of the run, after the spinner. *)
Lemma generation_handler_sends_request
    (transcript api_key : string) (c : client) (w : world) :
  str_truthy (strip transcript) = true ->
  str_truthy api_key = true ->
  genai_Client api_key = Return c ->
  exists evs,
    events_since w (snd (generation_handler transcript api_key w))
      (spinner_event :: request_event (strip transcript) :: evs).
Proof.
  intros Ht Hk Hc. unfold generation_handler, events_since. rewrite Ht, Hk. cbn [negb].
  unfold bind at 1. rewrite emit_run.
  unfold try_except, bind at 1, get_genai_client, lift. rewrite Hk, Hc. cbn [negb].
  unfold bind at 1. rewrite summarize_meeting_run. cbn zeta.
  destruct (reply c (strip transcript)) as [raw|e];
    [destruct (json_loads raw) as [v|e];
       [destruct v;
          try destruct (dict_mem "raw_response" (dict_merge _blank_minutes members))
       |destruct (is_json_decode_error e)]|];
    eexists; cbn; rewrite <- !app_assoc; cbn [app]; reflexivity.
Qed.

(** C5. An exception of the network call leaves [summarize_meeting] as it
    was raised; the generation handler catches it, whatever it is, shows
    "Failed to generate minutes: <details>" and leaves the session store as
    it found it. *)
Theorem network_failure_keeps_state
    (transcript api_key : string) (c : client) (e : exn) (w : world) :
  str_truthy (strip transcript) = true ->
  str_truthy api_key = true ->
  genai_Client api_key = Return c ->
  reply c (strip transcript) = Raise e ->
  (forall w0, fst (summarize_meeting c (strip transcript) w0) = Raise e) /\
  generation_handler transcript api_key w =
    (Return tt,
     after_events w
       [spinner_event; request_event (strip transcript);
        StError ("Failed to generate minutes: " ++ exn_str e)]) /\
  session_state (snd (generation_handler transcript api_key w)) = session_state w.
Proof.
  intros Ht Hk Hc Hreply.
  assert (Hraise : forall w0, summarize_meeting c (strip transcript) w0
                     = (Raise e, after_events w0 [request_event (strip transcript)])).
  { intros w0. now rewrite summarize_meeting_run, Hreply. }
  split; [intros w0; now rewrite Hraise|].
  rewrite (generation_handler_generator_raises _ _ _ _ _ Ht Hk Hc Hraise).
  split; reflexivity.
Qed.

(** C9. A response that is valid JSON but no JSON object (an array, a text,
    a number, a literal) gives neither merged minutes nor the raw-text
    fallback: the merge raises a [TypeError], which the generator does not
    catch and which ends in the catch-all of the generation handler. *)
Theorem non_object_response_raises
    (transcript api_key raw_text : string) (c : client) (v : json) (w : world) :
  str_truthy (strip transcript) = true ->
  str_truthy api_key = true ->
  genai_Client api_key = Return c ->
  reply c (strip transcript) = Return raw_text ->
  json_loads raw_text = Return v ->
  (forall members, v <> JObj members) ->
  (forall w0, fst (summarize_meeting c (strip transcript) w0) = Raise (not_a_mapping v)) /\
  exn_class_of (not_a_mapping v) = TypeError /\
  is_json_decode_error (not_a_mapping v) = false /\
  generation_handler transcript api_key w =
    (Return tt,
     after_events w
       [spinner_event; request_event (strip transcript);
        StError ("Failed to generate minutes: '" ++ type_name v
                 ++ "' object is not a mapping")]).
Proof.
  intros Ht Hk Hc Hreply Hloads Hobj.
  assert (Hraise : forall w0, summarize_meeting c (strip transcript) w0
                     = (Raise (not_a_mapping v),
                        after_events w0 [request_event (strip transcript)])).
  { intros w0. rewrite summarize_meeting_run, Hreply. cbn zeta. rewrite Hloads.
    destruct v; try reflexivity. now elim (Hobj members). }
  split; [intros w0; now rewrite Hraise|].
  split; [reflexivity|]. split; [reflexivity|].
  now rewrite (generation_handler_generator_raises _ _ _ _ _ Ht Hk Hc Hraise).
Qed.

(** C6. When the button is pressed with a transcript that is empty once
    trimmed, or with an empty resolved key, the page shows a warning or an
    error and nothing else happens: the generator is not called and no
    request is sent.  A request is sent only when the trimmed transcript
    and the key are both non-empty. *)
Theorem guards_precede_generator (transcript api_key : string) (w : world) :
  load_api_key = Return api_key ->
  (strip transcript = "" ->
   generate_section true transcript w =
     (Return tt,
      after_events w [StWarning "Please provide a transcript before generating minutes."])) /\
  (strip transcript <> "" -> api_key = "" ->
   generate_section true transcript w =
     (Return tt,
      after_events w
        [StError ("No Gemini API key found. Provide it via config.json, the environment, "
                  ++ "or Streamlit secrets.")])) /\
  (forall evs,
     events_since w (snd (generate_section true transcript w)) evs ->
     existsb is_network_call evs = true ->
     strip transcript <> "" /\ api_key <> "").
Proof.
  intros Hkey.
  assert (Hrun : generate_section true transcript w = generation_handler transcript api_key w).
  { unfold generate_section, bind, lift. now rewrite Hkey. }
  rewrite Hrun.
  split; [|split].
  - intros Ht. apply generation_handler_no_transcript. now rewrite Ht.
  - intros Ht ->. apply generation_handler_no_key; [|reflexivity].
    destruct (strip transcript); [congruence | reflexivity].
  - intros evs Hsince Hcall.
    destruct (str_truthy (strip transcript)) eqn:Ht.
    + destruct (str_truthy api_key) eqn:Hk.
      * split; intros E; rewrite E in *; discriminate.
      * rewrite (generation_handler_no_key _ _ _ Ht Hk) in Hsince.
        unfold events_since, after_events in Hsince. simpl in Hsince.
        apply app_inv_head in Hsince. subst evs. discriminate.
    + rewrite (generation_handler_no_transcript _ _ _ Ht) in Hsince.
      unfold events_since, after_events in Hsince. simpl in Hsince.
      apply app_inv_head in Hsince. subst evs. discriminate.
Qed.

(** ** The credential resolver *)

(** C2. Whatever the secrets store and the environment hold, [load_api_key]
    returns the first non-empty text in the order secrets store, environment
    variable, and the empty text when neither has one; a lookup in the
    secrets store that raises counts as a store without the key, and
    [load_api_key] itself never raises. *)
Theorem load_api_key_priority :
  load_api_key =
  Return (first_non_empty [found (secrets "GEMINI_API_KEY"); getenv "GEMINI_API_KEY"]).
Proof.
  unfold load_api_key, first_non_empty, found, is_exception.
  destruct (secrets "GEMINI_API_KEY") as [s|e];
    [destruct (str_truthy s)|];
    try reflexivity;
    destruct (getenv "GEMINI_API_KEY") as [k|]; try reflexivity;
    destruct (str_truthy k); reflexivity.
Qed.

(** ** The session store *)

(** C7. The clear action leaves the empty Minutes template in the session,
    whatever the session held: all five fields, each with its empty
    default; the stored JSON text and the stored raw output are emptied
    too. *)
Theorem clear_resets_session (w : world) :
  exists w',
    clear_section true w = (Return tt, w') /\
    dict_get "minutes" (session_state w') = Some (JObj _blank_minutes) /\
    dict_get "raw_json" (session_state w') = Some (JStr "") /\
    dict_get "raw_response" (session_state w') = Some (JStr "") /\
    dict_keys _blank_minutes = minutes_fields /\
    Forall (fun k => dict_get k _blank_minutes = Some (empty_default k)) minutes_fields.
Proof.
  eexists. split; [reflexivity|]. cbn [session_state snd].
  repeat split.
  - rewrite !dict_get_set_other by discriminate. apply dict_get_set_same.
  - rewrite dict_get_set_other by discriminate. apply dict_get_set_same.
  - apply dict_get_set_same.
  - repeat constructor.
Qed.

(** ** The encoder *)

Lemma string_app_assoc (s1 s2 s3 : string) : (s1 ++ s2) ++ s3 = s1 ++ (s2 ++ s3).
Proof. induction s1 as [|c s1 IH]; simpl; [reflexivity | now rewrite IH]. Qed.

Lemma string_app_nil_r (s : string) : s ++ "" = s.
Proof. induction s as [|c s IH]; simpl; [reflexivity | now rewrite IH]. Qed.

(** *** The file against its description line by line *)

Lemma json_nested_ind (P : json -> Prop) :
  P JNull ->
  (forall b, P (JBool b)) ->
  (forall z, P (JInt z)) ->
  (forall s, P (JStr s)) ->
  (forall items, Forall P items -> P (JArr items)) ->
  (forall members, Forall (fun kv => P (snd kv)) members -> P (JObj members)) ->
  forall v, P v.
Proof.
  intros Hnull Hbool Hint Hstr Harr Hobj.
  fix IH 1. intros [ | b | z | s | items | members].
  - exact Hnull.
  - apply Hbool.
  - apply Hint.
  - apply Hstr.
  - apply Harr. revert items. fix IHitems 1. intros [|item rest].
    + constructor.
    + constructor; [apply IH | apply IHitems].
  - apply Hobj. revert members. fix IHmembers 1. intros [|[k x] rest].
    + constructor.
    + constructor; [apply IH | apply IHmembers].
Qed.

Lemma concat_empty_cons (x : string) (xs : list string) :
  String.concat "" (x :: xs) = x ++ String.concat "" xs.
Proof. destruct xs; cbn [String.concat]; [now rewrite string_app_nil_r | reflexivity]. Qed.

Lemma concat_empty_app (xs ys : list string) :
  String.concat "" (xs ++ ys) = String.concat "" xs ++ String.concat "" ys.
Proof.
  induction xs as [|x xs IH]; [reflexivity|].
  cbn [app]. now rewrite !concat_empty_cons, IH, string_app_assoc.
Qed.

Lemma indentation_spaces (depth : nat) : indentation depth = spaces (2 * depth).
Proof.
  unfold indentation. induction depth as [|depth IH]; [reflexivity|].
  replace (2 * S depth) with (S (S (2 * depth))) by lia.
  cbn [repeat spaces]. now rewrite concat_empty_cons, IH.
Qed.

Lemma reference_char_escape (c : ascii) : reference_char c = escape_char c.
Proof. destruct c as [[] [] [] [] [] [] [] []]; reflexivity. Qed.

Lemma reference_text_encode (s : string) : reference_text s = encode_basestring s.
Proof.
  unfold reference_text, encode_basestring. do 2 f_equal.
  induction s as [|c s IH]; [reflexivity|].
  cbn [list_ascii_of_string map escape_text].
  now rewrite concat_empty_cons, IH, reference_char_escape.
Qed.

Lemma reference_char_plain (c : ascii) :
  plain_byte c -> reference_char c = String c EmptyString.
Proof.
  intros Hplain. rewrite reference_char_escape. unfold escape_char.
  repeat match goal with
         | |- context [(?a =? ?b)%nat] =>
             destruct (Nat.eqb_spec a b); [unfold plain_byte in Hplain; lia|]
         end.
  destruct (Nat.ltb_spec (nat_of_ascii c) 32);
    [unfold plain_byte in Hplain; lia | reflexivity].
Qed.

Lemma reference_text_plain (s : string) :
  Forall plain_byte (list_ascii_of_string s) -> reference_text s = dq ++ s ++ dq.
Proof.
  intros Hplain. unfold reference_text. do 2 f_equal.
  induction s as [|c s IH]; [reflexivity|].
  cbn [list_ascii_of_string map] in *. inversion_clear Hplain as [|? ? Hc Hs].
  rewrite concat_empty_cons, (reference_char_plain c Hc), (IH Hs). reflexivity.
Qed.

Lemma continued_app (xs ys : list (nat * string)) :
  continued (xs ++ ys) = continued xs ++ continued ys.
Proof. unfold continued. now rewrite map_app, concat_empty_app. Qed.

Lemma continued_cons (l : nat * string) (rest : list (nat * string)) :
  continued (l :: rest) = nl ++ written_line l ++ continued rest.
Proof.
  unfold continued. cbn [map]. now rewrite concat_empty_cons, string_app_assoc.
Qed.

Lemma continued_last_with (s : string) (lines : list (nat * string)) :
  lines <> [] -> continued (last_with s lines) = continued lines ++ s.
Proof.
  induction lines as [|[depth text] rest IH]; [congruence|]. intros _.
  destruct rest as [|l rest'].
  - cbn [last_with]. rewrite !continued_cons. unfold written_line, continued. cbn.
    now rewrite !string_app_assoc, !string_app_nil_r.
  - change (last_with s ((depth, text) :: l :: rest'))
      with ((depth, text) :: last_with s (l :: rest')).
    rewrite (continued_cons (depth, text) (last_with s (l :: rest'))),
      (continued_cons (depth, text) (l :: rest')), IH by discriminate.
    now rewrite !string_app_assoc.
Qed.

Lemma concat_lines (l : nat * string) (rest : list (nat * string)) :
  String.concat nl (map written_line (l :: rest)) = written_line l ++ continued rest.
Proof.
  revert l. induction rest as [|l' rest IH]; intros l.
  - cbn. now rewrite string_app_nil_r.
  - change (String.concat nl (map written_line (l :: l' :: rest)))
      with (written_line l ++ nl ++ String.concat nl (map written_line (l' :: rest))).
    now rewrite IH, continued_cons.
Qed.

(** The entries of a list or an object: each starts on a new line at the
    inner depth, a comma closes each but the last. *)
Lemma separated_entries {A : Type} (written : A -> string)
    (block : A -> list (nat * string)) (opening : string) (entries : list A) :
  (forall x, In x entries -> block x <> [] /\ continued (block x) = opening ++ written x) ->
  entries <> [] ->
  continued (separated (map block entries))
  = opening ++ String.concat ("," ++ opening) (map written entries).
Proof.
  induction entries as [|x rest IH]; [congruence|]. intros Hall _.
  destruct (Hall x (or_introl eq_refl)) as [Hne Hx].
  destruct rest as [|y rest'].
  - cbn [map separated String.concat]. exact Hx.
  - change (separated (map block (x :: y :: rest')))
      with (last_with "," (block x) ++ separated (map block (y :: rest')))%list.
    change (String.concat ("," ++ opening) (map written (x :: y :: rest')))
      with (written x ++ ("," ++ opening)
              ++ String.concat ("," ++ opening) (map written (y :: rest'))).
    rewrite continued_app, (continued_last_with "," _ Hne), Hx.
    rewrite IH; [|intros z Hz; apply Hall; now right | discriminate].
    now rewrite !string_app_assoc.
Qed.

(** [json.dumps] with [indent=2] writes a value as its layout says: the
    first line at the place the value starts, the others each on a new
    line after two spaces for each level of its depth. *)
Lemma json_encode_layout (v : json) :
  forall depth,
  exists text rest,
    layout depth v = (depth, text) :: rest /\
    json_encode 2 depth v = text ++ continued rest.
Proof.
  induction v as [ | b | z | s | items IH | members IH] using json_nested_ind;
    intros depth.
  - exists "null", []. split; reflexivity.
  - destruct b; [exists "true", [] | exists "false", []]; split; reflexivity.
  - exists (int_str z), []. cbn. now rewrite string_app_nil_r.
  - exists (reference_text s), []. cbn [layout json_encode].
    now rewrite reference_text_encode, string_app_nil_r.
  - destruct items as [|item rest]; [exists "[]", []; split; reflexivity|].
    eexists "[", _. split; [reflexivity|].
    cbn [json_encode]. rewrite continued_app.
    rewrite (separated_entries (json_encode 2 (S depth)) (layout (S depth))
               (newline_indent 2 (S depth))); [|intros x Hx|discriminate].
    + unfold join, newline_indent. rewrite continued_cons. unfold written_line, continued.
      cbn [fst snd map String.concat]. rewrite !indentation_spaces.
      now rewrite !string_app_assoc, ?string_app_nil_r.
    + rewrite Forall_forall in IH. destruct (IH x Hx (S depth)) as (text & tail & Hl & He).
      rewrite Hl, He. split; [discriminate|].
      rewrite continued_cons. unfold written_line, newline_indent. cbn [fst snd].
      now rewrite indentation_spaces, !string_app_assoc.
  - destruct members as [|member rest]; [exists "{}", []; split; reflexivity|].
    eexists "{", _. split; [reflexivity|].
    cbn [json_encode]. rewrite continued_app.
    rewrite (separated_entries
               (fun kv : string * json =>
                  let '(k, x) := kv in
                  encode_basestring k ++ ": " ++ json_encode 2 (S depth) x)
               (fun kv : string * json =>
                  let '(k, x) := kv in
                  first_with (reference_text k ++ ": ") (layout (S depth) x))
               (newline_indent 2 (S depth))); [|intros [k x] Hx|discriminate].
    + unfold join, newline_indent. rewrite continued_cons. unfold written_line, continued.
      cbn [fst snd map String.concat]. rewrite !indentation_spaces.
      now rewrite !string_app_assoc, ?string_app_nil_r.
    + rewrite Forall_forall in IH.
      destruct (IH (k, x) Hx (S depth)) as (text & tail & Hl & He).
      cbn [snd] in Hl, He. rewrite Hl, He. cbn [first_with]. split; [discriminate|].
      rewrite continued_cons. unfold written_line, newline_indent. cbn [fst snd].
      now rewrite indentation_spaces, reference_text_encode, !string_app_assoc.
Qed.

Lemma json_dumps_layout (v : json) :
  json_dumps 2 v = String.concat nl (map written_line (layout 0 v)).
Proof.
  unfold json_dumps. destruct (json_encode_layout v 0) as (text & rest & Hl & He).
  now rewrite Hl, He, concat_lines.
Qed.

(** C8. The download button offers a file named [minutes.json] whose
    content is the Minutes record of the session pretty-printed with
    two-space indentation: the lines of the record's layout, each written
    after two spaces for each level of its nesting depth and ended by a
    line end but the last.  In the texts of the file every byte of a
    non-ASCII character, like every ordinary ASCII character, is written
    as it is, between the quotes. *)
Theorem download_offers_minutes_json (w : world) (minutes : pydict) :
  dict_get "minutes" (session_state w) = Some (JObj minutes) ->
  download_section w =
    (Return tt,
     after_events w
       [StDownloadButton "⬇️ Download JSON"
          (String.concat nl
             (map (fun l => indentation (fst l) ++ snd l) (layout 0 (JObj minutes))))
          "minutes.json" "application/json"
          (negb (truthy (dict_get_default "summary" JNull minutes))
           && negb (truthy (dict_get_default "action_items" JNull minutes)))]) /\
  (forall s, Forall plain_byte (list_ascii_of_string s) ->
             reference_text s = dq ++ s ++ dq /\
             json_dumps 2 (JStr s) = dq ++ s ++ dq).
Proof.
  intros Hminutes. split.
  - unfold download_section, bind, get_state. rewrite Hminutes.
    cbn [method_get ret]. rewrite emit_run, json_dumps_layout. reflexivity.
  - intros s Hplain. split; [now apply reference_text_plain|].
    change (json_dumps 2 (JStr s)) with (encode_basestring s).
    rewrite <- reference_text_encode. now apply reference_text_plain.
Qed.

(** ** The action item formatter *)

Lemma format_action_item_shape (item : pydict) :
  format_action_item item =
  "**" ++ py_str (dict_get_default "owner" (JStr "Unassigned") item)
       ++ "** — " ++ py_str (dict_get_default "task" (JStr "Task not specified") item)
       ++ optional_parts item.
Proof.
  unfold format_action_item, optional_parts, list_append, join.
  destruct (truthy (dict_get_default "due" JNull item));
    destruct (truthy (dict_get_default "priority" JNull item));
    cbn [app String.concat]; rewrite ?string_app_assoc, ?string_app_nil_r; reflexivity.
Qed.

Lemma prefix_app (p s : string) : prefix p (p ++ s) = true.
Proof.
  induction p as [|c p IH]; simpl; [now destruct s|].
  destruct (ascii_dec c c); [exact IH | congruence].
Qed.

Lemma get_default_present (k : string) (default v : json) (d : pydict) :
  dict_get k d = Some v -> dict_get_default k default d = v.
Proof. unfold dict_get_default. now intros ->. Qed.

Lemma get_default_absent (k : string) (default : json) (d : pydict) :
  dict_get k d = None -> dict_get_default k default d = default.
Proof. unfold dict_get_default. now intros ->. Qed.

Lemma str_truthy_non_empty (s : string) : s <> "" -> str_truthy s = true.
Proof. destruct s; [congruence | reflexivity]. Qed.

(** A due date or priority that is absent or empty adds nothing to the line. *)
Lemma optional_part_omitted (k : string) (item : pydict) :
  dict_get k item = None \/ dict_get k item = Some (JStr "") ->
  truthy (dict_get_default k JNull item) = false.
Proof. unfold dict_get_default. now intros [-> | ->]. Qed.

(** C4. [format_action_item] is a function of the record alone.  With
    owner, task, due and priority present as texts, due and priority
    non-empty, the line is
    "**<owner>** — <task> | **Due:** <due> | **Priority:** <priority>";
    with the task alone it is "**Unassigned** — <task>"; a due date or a
    priority that is absent or empty leaves no part and no delimiter. *)
Theorem format_action_item_line :
  (forall item owner task due priority,
     dict_get "owner" item = Some (JStr owner) ->
     dict_get "task" item = Some (JStr task) ->
     dict_get "due" item = Some (JStr due) ->
     dict_get "priority" item = Some (JStr priority) ->
     due <> "" -> priority <> "" ->
     format_action_item item =
     "**" ++ owner ++ "** — " ++ task ++ " | **Due:** " ++ due
          ++ " | **Priority:** " ++ priority) /\
  (forall item task,
     dict_keys item = ["task"] ->
     dict_get "task" item = Some (JStr task) ->
     format_action_item item = "**Unassigned** — " ++ task) /\
  (forall item owner task,
     dict_get "owner" item = Some (JStr owner) ->
     dict_get "task" item = Some (JStr task) ->
     (dict_get "due" item = None \/ dict_get "due" item = Some (JStr "")) ->
     (dict_get "priority" item = None \/ dict_get "priority" item = Some (JStr "")) ->
     format_action_item item = "**" ++ owner ++ "** — " ++ task) /\
  (forall item owner task due,
     dict_get "owner" item = Some (JStr owner) ->
     dict_get "task" item = Some (JStr task) ->
     dict_get "due" item = Some (JStr due) -> due <> "" ->
     (dict_get "priority" item = None \/ dict_get "priority" item = Some (JStr "")) ->
     format_action_item item = "**" ++ owner ++ "** — " ++ task ++ " | **Due:** " ++ due) /\
  (forall item owner task priority,
     dict_get "owner" item = Some (JStr owner) ->
     dict_get "task" item = Some (JStr task) ->
     (dict_get "due" item = None \/ dict_get "due" item = Some (JStr "")) ->
     dict_get "priority" item = Some (JStr priority) -> priority <> "" ->
     format_action_item item =
     "**" ++ owner ++ "** — " ++ task ++ " | **Priority:** " ++ priority).
Proof.
  split; [|split; [|split; [|split]]].
  - intros item owner task due priority Ho Ht Hd Hp Hdne Hpne.
    rewrite format_action_item_shape. unfold optional_parts.
    rewrite (get_default_present _ _ _ _ Ho), (get_default_present _ _ _ _ Ht),
      (get_default_present _ _ _ _ Hd), (get_default_present _ _ _ _ Hp).
    cbn [truthy py_str]. rewrite (str_truthy_non_empty _ Hdne), (str_truthy_non_empty _ Hpne).
    now rewrite !string_app_assoc.
  - intros item task Hkeys Ht.
    assert (Hno : forall k, k <> "task" -> dict_get k item = None).
    { intros k Hk. apply dict_get_None_keys. rewrite Hkeys. simpl.
      intros [E|[]]. congruence. }
    rewrite format_action_item_shape. unfold optional_parts.
    rewrite (get_default_present _ _ _ _ Ht).
    rewrite !get_default_absent by (apply Hno; discriminate).
    cbn [truthy py_str]. now rewrite !string_app_nil_r.
  - intros item owner task Ho Ht Hd Hp.
    rewrite format_action_item_shape. unfold optional_parts.
    rewrite (get_default_present _ _ _ _ Ho), (get_default_present _ _ _ _ Ht).
    rewrite (optional_part_omitted _ _ Hd), (optional_part_omitted _ _ Hp).
    cbn [py_str]. now rewrite !string_app_nil_r.
  - intros item owner task due Ho Ht Hd Hdne Hp.
    rewrite format_action_item_shape. unfold optional_parts.
    rewrite (get_default_present _ _ _ _ Ho), (get_default_present _ _ _ _ Ht).
    rewrite (optional_part_omitted _ _ Hp), (get_default_present _ _ _ _ Hd).
    cbn [truthy py_str]. rewrite (str_truthy_non_empty _ Hdne).
    now rewrite !string_app_nil_r.
  - intros item owner task priority Ho Ht Hd Hp Hpne.
    rewrite format_action_item_shape. unfold optional_parts.
    rewrite (get_default_present _ _ _ _ Ho), (get_default_present _ _ _ _ Ht).
    rewrite (optional_part_omitted _ _ Hd), (get_default_present _ _ _ _ Hp).
    cbn [truthy py_str]. now rewrite (str_truthy_non_empty _ Hpne).
Qed.

(** C10. The defaults "Unassigned" and "Task not specified" stand in for a
    key that is absent, not for one that is present with the empty text:
    with the owner present and empty the line begins with "**** — ", not
    with "**Unassigned** — ", and with the task present and empty nothing
    stands between the dash and the optional parts. *)
Theorem empty_owner_is_not_defaulted (item : pydict) :
  (dict_get "owner" item = Some (JStr "") ->
   prefix "**** — " (format_action_item item) = true /\
   prefix "**Unassigned** — " (format_action_item item) = false) /\
  (dict_get "owner" item = None ->
   prefix "**Unassigned** — " (format_action_item item) = true) /\
  (dict_get "task" item = Some (JStr "") ->
   format_action_item item =
   "**" ++ py_str (dict_get_default "owner" (JStr "Unassigned") item) ++ "** — "
        ++ optional_parts item) /\
  (dict_get "task" item = None ->
   format_action_item item =
   "**" ++ py_str (dict_get_default "owner" (JStr "Unassigned") item)
        ++ "** — Task not specified" ++ optional_parts item).
Proof.
  rewrite format_action_item_shape.
  split; [|split; [|split]].
  - intros Ho. rewrite (get_default_present _ _ _ _ Ho). cbn [py_str].
    split; [|reflexivity].
    change ("**" ++ "" ++ "** — " ++ ?r) with ("**** — " ++ r).
    apply prefix_app.
  - intros Ho. rewrite (get_default_absent _ _ _ Ho). cbn [py_str].
    change ("**" ++ "Unassigned" ++ "** — " ++ ?r) with ("**Unassigned** — " ++ r).
    apply prefix_app.
  - intros Ht. rewrite (get_default_present _ _ _ _ Ht). reflexivity.
  - intros Ht. rewrite (get_default_absent _ _ _ Ht). cbn [py_str].
    reflexivity.
Qed.

(** ** More on dictionaries and the generator *)

Lemma dict_mem_set (k k1 : string) (v : json) (d : pydict) :
  dict_mem k (dict_set k1 v d) = (String.eqb k k1 || dict_mem k d)%bool.
Proof.
  unfold dict_mem. destruct (String.eqb_spec k k1) as [->|Hk].
  - now rewrite dict_get_set_same.
  - rewrite dict_get_set_other by congruence. reflexivity.
Qed.

Lemma dict_mem_merge (k : string) (b a : pydict) :
  dict_mem k (dict_merge a b) = (dict_mem k a || dict_mem k b)%bool.
Proof.
  unfold dict_merge. revert a.
  induction b as [|[k1 v1] rest IH]; intros a; simpl.
  - now rewrite orb_false_r.
  - rewrite IH, dict_mem_set. unfold dict_mem at 4. simpl.
    destruct (String.eqb k k1); simpl.
    + now rewrite orb_true_r.
    + reflexivity.
Qed.

Lemma dict_mem_false_keys (k : string) (d : pydict) :
  dict_mem k d = false <-> ~ In k (dict_keys d).
Proof.
  rewrite <- dict_mem_keys. destruct (dict_mem k d); split; congruence.
Qed.

(** The keys of [{**a, **b}]: those of [a], then the new ones of [b], each
    in the order it had. *)
Lemma dict_keys_merge (b : pydict) :
  NoDup (dict_keys b) ->
  forall a,
    dict_keys (dict_merge a b) =
    (dict_keys a ++ filter (fun k => negb (dict_mem k a)) (dict_keys b))%list.
Proof.
  unfold dict_merge.
  induction b as [|[k1 v1] rest IH]; simpl; intros Hnd a.
  - now rewrite app_nil_r.
  - inversion Hnd as [|? ? Hnotin Hnd']; subst. rewrite (IH Hnd').
    assert (Hfilter : forall keys,
               ~ In k1 keys ->
               filter (fun k => negb (dict_mem k (dict_set k1 v1 a))) keys =
               filter (fun k => negb (dict_mem k a)) keys).
    { intros keys Hk. apply filter_ext_in. intros k Hin. rewrite dict_mem_set.
      destruct (String.eqb_spec k k1) as [->|]; [contradiction | reflexivity]. }
    rewrite (Hfilter _ Hnotin).
    destruct (dict_mem k1 a) eqn:Hmem; simpl.
    + rewrite dict_keys_set_present by (now apply dict_mem_keys). reflexivity.
    + rewrite dict_keys_set_absent by (now apply dict_mem_false_keys).
      now rewrite <- app_assoc.
Qed.

(** X1. Whatever keys the JSON object of the reply has, the minutes that
    [summarize_meeting] returns start with the five fields in the order of
    the template, followed by the other keys of the object in their order;
    every key of the object keeps its value and a field the object lacks
    has its empty default. *)
Theorem summarize_meeting_keeps_extra_keys
    (c : client) (transcript raw_text : string) (parsed : pydict) (w : world) :
  reply c transcript = Return raw_text ->
  json_loads raw_text = Return (JObj parsed) ->
  NoDup (dict_keys parsed) ->
  exists result,
    fst (summarize_meeting c transcript w) = Return result /\
    dict_keys result =
      (minutes_fields
       ++ filter (fun k => negb (dict_mem k _blank_minutes)) (dict_keys parsed))%list /\
    (forall k v, dict_get k parsed = Some v -> dict_get k result = Some v) /\
    (forall k, In k minutes_fields -> dict_get k parsed = None ->
               dict_get k result = Some (empty_default k)).
Proof.
  intros Hreply Hloads Hnd. exists (dict_merge _blank_minutes parsed).
  split; [|split; [|split]].
  - rewrite summarize_meeting_run, Hreply. cbn zeta. now rewrite Hloads.
  - now rewrite (dict_keys_merge parsed Hnd).
  - intros k v Hk. now rewrite (dict_get_merge k parsed Hnd), Hk.
  - intros k Hin Hk. rewrite (dict_get_merge k parsed Hnd), Hk.
    now apply blank_minutes_defaults.
Qed.

(** X2. Whatever the service answers and whatever the decoder makes of it,
    [summarize_meeting] sends one request, made of the instruction and of
    the transcript after "Meeting transcript:", and leaves the session
    store as it is. *)
Theorem summarize_meeting_sends_one_request
    (c : client) (transcript : string) (w : world) :
  let w' := snd (summarize_meeting c transcript w) in
  session_state w' = session_state w /\
  trace w' =
    app (trace w)
      [GenerateContent "gemini-2.5-flash"
         [system_instruction; "Meeting transcript:" ++ nl ++ transcript]
         "application/json"].
Proof.
  cbn zeta. rewrite summarize_meeting_run. cbn zeta.
  destruct (reply c transcript) as [raw|e]; [|split; reflexivity].
  destruct (json_loads raw) as [v|e].
  - destruct v; split; reflexivity.
  - destruct (is_json_decode_error e); split; reflexivity.
Qed.

(** ** More on the generation handler *)

(** The handler past its guards, by what the generator gives. *)
Lemma generation_handler_with_client
    (transcript api_key : string) (c : client) (w : world) :
  str_truthy (strip transcript) = true ->
  str_truthy api_key = true ->
  genai_Client api_key = Return c ->
  generation_handler transcript api_key w =
  match summarize_meeting c (strip transcript) (after_events w [spinner_event]) with
  | (Return summary, w1) =>
      if dict_mem "raw_response" summary then
        (Return tt,
         World (store_raw_response (dict_get_default "raw_response" JNull summary)
                  (session_state w1))
               (trace w1 ++ [malformed_event])%list)
      else
        (Return tt,
         World (store_minutes summary (session_state w1)) (trace w1 ++ [success_event])%list)
  | (Raise e, w1) => (Return tt, after_events w1 [failure_event e])
  end.
Proof.
  intros Ht Hk Hc. unfold generation_handler. rewrite Ht, Hk. cbn [negb].
  unfold bind at 1. rewrite emit_run.
  unfold try_except, bind at 1, get_genai_client, lift. rewrite Hk, Hc. cbn [negb].
  unfold bind at 1, spinner_event.
  destruct (summarize_meeting c (strip transcript)
              (after_events w [StSpinner "Analyzing meeting..."]))
    as [[summary|e] w1]; [|reflexivity].
  destruct (dict_mem "raw_response" summary); reflexivity.
Qed.

Lemma store_minutes_lookup (summary store : pydict) :
  dict_get "minutes" (store_minutes summary store) = Some (JObj summary) /\
  dict_get "raw_json" (store_minutes summary store)
    = Some (JStr (json_dumps 2 (JObj summary))) /\
  dict_get "raw_response" (store_minutes summary store) = Some (JStr "") /\
  forall k, k <> "minutes" -> k <> "raw_json" -> k <> "raw_response" ->
            dict_get k (store_minutes summary store) = dict_get k store.
Proof.
  unfold store_minutes. repeat split.
  - rewrite !dict_get_set_other by discriminate. apply dict_get_set_same.
  - rewrite dict_get_set_other by discriminate. apply dict_get_set_same.
  - apply dict_get_set_same.
  - intros k H1 H2 H3. rewrite !dict_get_set_other by congruence. reflexivity.
Qed.

Lemma store_raw_response_lookup (raw : json) (store : pydict) :
  dict_get "raw_response" (store_raw_response raw store) = Some raw /\
  dict_get "raw_json" (store_raw_response raw store) = Some (JStr "") /\
  forall k, k <> "raw_json" -> k <> "raw_response" ->
            dict_get k (store_raw_response raw store) = dict_get k store.
Proof.
  unfold store_raw_response. repeat split.
  - rewrite dict_get_set_other by discriminate. apply dict_get_set_same.
  - apply dict_get_set_same.
  - intros k H1 H2. rewrite !dict_get_set_other by congruence. reflexivity.
Qed.

(** X3. When the reply decodes to a JSON object without a [raw_response]
    key, the handler stores the merged minutes, their JSON text written
    with two-space indentation, and an empty raw output; it touches no
    other key of the session and shows the spinner, then the success
    message, around the one request. *)
Theorem generation_success_updates_session
    (transcript api_key raw_text : string) (c : client) (parsed : pydict) (w : world) :
  str_truthy (strip transcript) = true ->
  str_truthy api_key = true ->
  genai_Client api_key = Return c ->
  reply c (strip transcript) = Return raw_text ->
  json_loads raw_text = Return (JObj parsed) ->
  dict_mem "raw_response" parsed = false ->
  let minutes := dict_merge _blank_minutes parsed in
  exists w',
    generation_handler transcript api_key w = (Return tt, w') /\
    dict_get "minutes" (session_state w') = Some (JObj minutes) /\
    dict_get "raw_json" (session_state w') = Some (JStr (json_dumps 2 (JObj minutes))) /\
    dict_get "raw_response" (session_state w') = Some (JStr "") /\
    (forall k, k <> "minutes" -> k <> "raw_json" -> k <> "raw_response" ->
               dict_get k (session_state w') = dict_get k (session_state w)) /\
    trace w' =
      (trace w ++
       [StSpinner "Analyzing meeting..."; request_event (strip transcript);
        StSuccess "Minutes generated successfully!"])%list.
Proof.
  intros Ht Hk Hc Hreply Hloads Hraw minutes.
  rewrite (generation_handler_with_client _ _ _ _ Ht Hk Hc).
  rewrite summarize_meeting_run, Hreply. cbn zeta. rewrite Hloads.
  fold minutes.
  assert (Hmem : dict_mem "raw_response" minutes = false).
  { unfold minutes. now rewrite dict_mem_merge, Hraw. }
  rewrite Hmem. eexists. split; [reflexivity|].
  cbn [session_state trace after_events].
  destruct (store_minutes_lookup minutes (session_state w)) as (H1 & H2 & H3 & H4).
  repeat split; try assumption.
  now rewrite <- !app_assoc.
Qed.

(** X4. When the reply is not valid JSON, the handler shows "Model returned
    malformed JSON. See raw output below.", keeps the reply as the raw
    output and empties the stored JSON text; the minutes of the session
    and every other key stay as they were. *)
Theorem malformed_reply_keeps_minutes
    (transcript api_key raw_text : string) (c : client) (e : exn) (w : world) :
  str_truthy (strip transcript) = true ->
  str_truthy api_key = true ->
  genai_Client api_key = Return c ->
  reply c (strip transcript) = Return raw_text ->
  json_loads raw_text = Raise e ->
  is_json_decode_error e = true ->
  exists w',
    generation_handler transcript api_key w = (Return tt, w') /\
    dict_get "raw_response" (session_state w') = Some (JStr raw_text) /\
    dict_get "raw_json" (session_state w') = Some (JStr "") /\
    (forall k, k <> "raw_json" -> k <> "raw_response" ->
               dict_get k (session_state w') = dict_get k (session_state w)) /\
    trace w' =
      (trace w ++
       [StSpinner "Analyzing meeting..."; request_event (strip transcript);
        StError "Model returned malformed JSON. See raw output below."])%list.
Proof.
  intros Ht Hk Hc Hreply Hloads Hdecode.
  rewrite (generation_handler_with_client _ _ _ _ Ht Hk Hc).
  rewrite summarize_meeting_run, Hreply. cbn zeta. rewrite Hloads, Hdecode.
  eexists. split; [reflexivity|].
  cbn [session_state trace after_events].
  destruct (store_raw_response_lookup (JStr raw_text) (session_state w)) as (H1 & H2 & H3).
  repeat split; try assumption.
  now rewrite <- !app_assoc.
Qed.

(** X5. A reply that is a valid JSON object but has a key [raw_response] is
    taken for a malformed one: the handler shows the malformed-JSON error,
    stores the value of that key as the raw output, empties the stored
    JSON text and leaves the minutes of the session as they were. *)
Theorem raw_response_key_taken_for_malformed
    (transcript api_key raw_text : string) (c : client) (parsed : pydict)
    (value : json) (w : world) :
  str_truthy (strip transcript) = true ->
  str_truthy api_key = true ->
  genai_Client api_key = Return c ->
  reply c (strip transcript) = Return raw_text ->
  json_loads raw_text = Return (JObj parsed) ->
  NoDup (dict_keys parsed) ->
  dict_get "raw_response" parsed = Some value ->
  exists w',
    generation_handler transcript api_key w = (Return tt, w') /\
    dict_get "raw_response" (session_state w') = Some value /\
    dict_get "raw_json" (session_state w') = Some (JStr "") /\
    dict_get "minutes" (session_state w') = dict_get "minutes" (session_state w) /\
    trace w' =
      (trace w ++
       [StSpinner "Analyzing meeting..."; request_event (strip transcript);
        StError "Model returned malformed JSON. See raw output below."])%list.
Proof.
  intros Ht Hk Hc Hreply Hloads Hnd Hraw.
  rewrite (generation_handler_with_client _ _ _ _ Ht Hk Hc).
  rewrite summarize_meeting_run, Hreply. cbn zeta. rewrite Hloads.
  assert (Hget : dict_get "raw_response" (dict_merge _blank_minutes parsed) = Some value).
  { now rewrite (dict_get_merge _ parsed Hnd), Hraw. }
  unfold dict_mem, dict_get_default. rewrite Hget.
  eexists. split; [reflexivity|].
  cbn [session_state trace after_events].
  destruct (store_raw_response_lookup value (session_state w)) as (H1 & H2 & H3).
  repeat split; try assumption.
  - apply H3; discriminate.
  - now rewrite <- !app_assoc.
Qed.

(** X6. When [genai.Client] raises, the handler reports the exception after
    the spinner; no request is sent and the session store is untouched. *)
Theorem client_failure_sends_nothing
    (transcript api_key : string) (e : exn) (w : world) :
  str_truthy (strip transcript) = true ->
  str_truthy api_key = true ->
  genai_Client api_key = Raise e ->
  generation_handler transcript api_key w =
    (Return tt,
     World (session_state w)
       (trace w ++
        [StSpinner "Analyzing meeting...";
         StError ("Failed to generate minutes: " ++ exn_str e)])%list).
Proof.
  intros Ht Hk Hc. unfold generation_handler. rewrite Ht, Hk. cbn [negb].
  unfold bind at 1. rewrite emit_run.
  unfold try_except, bind, get_genai_client, lift. rewrite Hk, Hc. cbn [negb is_exception].
  rewrite emit_run, !after_events_app. reflexivity.
Qed.

Lemma load_api_key_returns : exists api_key, load_api_key = Return api_key.
Proof.
  unfold load_api_key, is_exception.
  destruct (secrets "GEMINI_API_KEY") as [s|e]; [destruct (str_truthy s)|];
    try (eexists; reflexivity);
    destruct (getenv "GEMINI_API_KEY") as [k|]; try (eexists; reflexivity);
    destruct (str_truthy k); eexists; reflexivity.
Qed.

(** The events one run of the handler adds, and what it does to the store. *)
Lemma generation_handler_events (transcript api_key : string) (w : world) :
  exists evs,
    fst (generation_handler transcript api_key w) = Return tt /\
    events_since w (snd (generation_handler transcript api_key w)) evs /\
    network_calls evs <= 1 /\
    (network_calls evs = 0 ->
     session_state (snd (generation_handler transcript api_key w)) = session_state w).
Proof.
  unfold events_since.
  destruct (str_truthy (strip transcript)) eqn:Ht.
  2:{ rewrite (generation_handler_no_transcript _ _ _ Ht).
      exists [no_transcript_event]. repeat split. cbn. lia. }
  destruct (str_truthy api_key) eqn:Hk.
  2:{ rewrite (generation_handler_no_key _ _ _ Ht Hk).
      exists [no_key_event]. repeat split. cbn. lia. }
  destruct (genai_Client api_key) as [c|e] eqn:Hc.
  2:{ rewrite (generation_handler_client_raises _ _ _ _ Ht Hk Hc).
      exists [spinner_event; failure_event e]. repeat split. cbn. lia. }
  rewrite (generation_handler_with_client _ _ _ _ Ht Hk Hc).
  rewrite summarize_meeting_run. cbn zeta.
  destruct (reply c (strip transcript)) as [raw|e];
    [destruct (json_loads raw) as [v|e];
       [destruct v;
          try destruct (dict_mem "raw_response" (dict_merge _blank_minutes members))
       |destruct (is_json_decode_error e)]|];
    eexists; (split; [reflexivity|]);
    (split; [cbn; rewrite <- !app_assoc; cbn [app]; reflexivity|]);
    split; cbn; (lia || discriminate).
Qed.

(** X7. No exception leaves the generation section of the page: the
    credential lookup returns, and whatever the client constructor, the
    service and the decoder do, the handler ends normally. *)
Theorem generate_section_never_raises
    (generate_clicked : bool) (transcript : string) (w : world) :
  fst (generate_section generate_clicked transcript w) = Return tt.
Proof.
  destruct load_api_key_returns as [api_key Hkey].
  unfold generate_section, bind, lift. rewrite Hkey.
  destruct generate_clicked; [|reflexivity].
  destruct (generation_handler_events transcript api_key w) as (evs & Hret & _).
  destruct (generation_handler transcript api_key w). exact Hret.
Qed.

(** X8. One press of the button sends at most one request, and a run that
    sends none leaves the session store as it was. *)
Theorem at_most_one_request (generate_clicked : bool) (transcript : string) (w : world) :
  exists evs,
    events_since w (snd (generate_section generate_clicked transcript w)) evs /\
    network_calls evs <= 1 /\
    (network_calls evs = 0 ->
     session_state (snd (generate_section generate_clicked transcript w))
     = session_state w).
Proof.
  destruct load_api_key_returns as [api_key Hkey].
  unfold generate_section, bind, lift. rewrite Hkey.
  destruct generate_clicked.
  - destruct (generation_handler_events transcript api_key w) as (evs & _ & H).
    exists evs. exact H.
  - exists []. unfold events_since. cbn. rewrite app_nil_r. repeat split. lia.
Qed.

(** ** The session store and the buttons *)

Lemma set_missing_get (k k' : string) (v : json) (store : pydict) :
  dict_get k' (set_missing k v store) =
  match dict_get k' store with
  | Some x => Some x
  | None => if String.eqb k' k then Some v else None
  end.
Proof.
  unfold set_missing, dict_mem.
  destruct (String.eqb_spec k' k) as [->|Hne].
  - destruct (dict_get k store) eqn:E; [now rewrite E|].
    rewrite dict_get_set_same. reflexivity.
  - destruct (dict_get k store).
    + now destruct (dict_get k' store).
    + rewrite dict_get_set_other by congruence. now destruct (dict_get k' store).
Qed.

Lemma set_missing_present (k : string) (v : json) (store : pydict) :
  dict_mem k store = true -> set_missing k v store = store.
Proof. unfold set_missing. now intros ->. Qed.

Lemma set_missing_mem (k k' : string) (v : json) (store : pydict) :
  dict_mem k' (set_missing k v store) = (dict_mem k' store || String.eqb k' k)%bool.
Proof.
  unfold dict_mem. rewrite set_missing_get.
  destruct (dict_get k' store); [reflexivity|]. now destruct (String.eqb k' k).
Qed.

Lemma init_session_state_run (w : world) :
  init_session_state w = (Return tt, World (initialised (session_state w)) (trace w)).
Proof.
  unfold init_session_state, initialised, set_missing, bind, in_state, set_state, ret.
  cbn [session_state trace].
  destruct (dict_mem "minutes" (session_state w)); cbn [negb session_state trace];
    match goal with
    | |- context [dict_mem "raw_json" ?d] =>
        destruct (dict_mem "raw_json" d); cbn [negb session_state trace]
    end;
    match goal with
    | |- context [dict_mem "raw_response" ?d] =>
        destruct (dict_mem "raw_response" d); cbn [negb session_state trace]
    end;
    try reflexivity; now destruct w.
Qed.

(** X9. The initialisation of the session never overwrites: a key the
    session has keeps its value, a missing [minutes] becomes the blank
    template, a missing [raw_json] or [raw_response] the empty text;
    nothing is shown, and a second initialisation changes nothing. *)
Theorem init_keeps_existing_state (w : world) :
  exists w',
    init_session_state w = (Return tt, w') /\
    trace w' = trace w /\
    (forall k v, dict_get k (session_state w) = Some v ->
                 dict_get k (session_state w') = Some v) /\
    (dict_get "minutes" (session_state w) = None ->
     dict_get "minutes" (session_state w') = Some (JObj _blank_minutes)) /\
    (dict_get "raw_json" (session_state w) = None ->
     dict_get "raw_json" (session_state w') = Some (JStr "")) /\
    (dict_get "raw_response" (session_state w) = None ->
     dict_get "raw_response" (session_state w') = Some (JStr "")) /\
    init_session_state w' = (Return tt, w').
Proof.
  exists (World (initialised (session_state w)) (trace w)).
  split; [apply init_session_state_run|]. split; [reflexivity|].
  cbn [session_state]. unfold initialised.
  split; [|split; [|split; [|split]]].
  - intros k v Hk. rewrite !set_missing_get, Hk. reflexivity.
  - intros Hk. rewrite !set_missing_get, Hk. reflexivity.
  - intros Hk. rewrite !set_missing_get, Hk. reflexivity.
  - intros Hk. rewrite !set_missing_get, Hk. reflexivity.
  - rewrite init_session_state_run. cbn [session_state trace]. f_equal. f_equal.
    unfold initialised.
    rewrite (set_missing_present "minutes");
      [|rewrite !set_missing_mem; cbn; now rewrite !orb_true_r].
    rewrite (set_missing_present "raw_json");
      [|rewrite !set_missing_mem; cbn; now rewrite !orb_true_r].
    rewrite (set_missing_present "raw_response");
      [|rewrite !set_missing_mem; cbn; now rewrite !orb_true_r].
    reflexivity.
Qed.

Lemma clear_section_run (w : world) :
  clear_section true w =
  (Return tt,
   World (dict_set "raw_response" (JStr "")
            (dict_set "raw_json" (JStr "")
               (dict_set "minutes" (JObj _blank_minutes) (session_state w))))
         (trace w ++ [StRerun])%list).
Proof. reflexivity. Qed.

Lemma download_section_run (w : world) (minutes : pydict) :
  dict_get "minutes" (session_state w) = Some (JObj minutes) ->
  download_section w =
  (Return tt,
   after_events w
     [StDownloadButton "⬇️ Download JSON" (json_dumps 2 (JObj minutes))
        "minutes.json" "application/json"
        (negb (truthy (dict_get_default "summary" JNull minutes))
         && negb (truthy (dict_get_default "action_items" JNull minutes)))]).
Proof.
  intros Hm. unfold download_section, bind, get_state. rewrite Hm.
  cbn [method_get ret]. now rewrite emit_run.
Qed.

Lemma copy_section_run (w : world) (raw_json : json) :
  dict_get "raw_json" (session_state w) = Some raw_json ->
  copy_section true w =
  (Return tt,
   after_events w
     [if truthy raw_json then StCode raw_json "json"
      else StInfo "Generate minutes first to view JSON."]).
Proof.
  intros Hj. unfold copy_section, bind, get_state. rewrite Hj.
  destruct (truthy raw_json); now rewrite emit_run.
Qed.

Lemma raw_output_section_run (w : world) (raw_response : json) :
  dict_get "raw_response" (session_state w) = Some raw_response ->
  raw_output_section w =
  if truthy raw_response
  then (Return tt, after_events w [StExpander "Model raw output"; StCode raw_response "json"])
  else (Return tt, w).
Proof.
  intros Hr. unfold raw_output_section, bind, get_state. rewrite Hr.
  destruct (truthy raw_response); [|reflexivity].
  rewrite !emit_run, after_events_app. reflexivity.
Qed.

(** X10. After the clear action the page has nothing to offer: the
    download button is disabled and holds the JSON of the blank template,
    the copy button answers "Generate minutes first to view JSON.", and no
    raw output is shown. *)
Theorem cleared_session_offers_nothing (w : world) :
  let w1 := snd (clear_section true w) in
  download_section w1 =
    (Return tt,
     after_events w1
       [StDownloadButton "⬇️ Download JSON" (json_dumps 2 (JObj _blank_minutes))
          "minutes.json" "application/json" true]) /\
  copy_section true w1 =
    (Return tt, after_events w1 [StInfo "Generate minutes first to view JSON."]) /\
  raw_output_section w1 = (Return tt, w1).
Proof.
  cbn zeta. rewrite clear_section_run. cbn [snd].
  split; [|split].
  - rewrite (download_section_run _ _blank_minutes); [reflexivity|].
    cbn [session_state]. rewrite !dict_get_set_other by discriminate.
    apply dict_get_set_same.
  - rewrite (copy_section_run _ (JStr "")); [reflexivity|].
    cbn [session_state]. rewrite dict_get_set_other by discriminate.
    apply dict_get_set_same.
  - rewrite (raw_output_section_run _ (JStr "")); [reflexivity|].
    cbn [session_state]. apply dict_get_set_same.
Qed.

(** X11. The download button is enabled exactly when the minutes of the
    session have a summary or action items that Python takes for true; a
    missing, empty or null summary together with missing or empty action
    items disables it. *)
Theorem download_enabled_iff (w : world) (minutes : pydict) :
  dict_get "minutes" (session_state w) = Some (JObj minutes) ->
  exists disabled,
    download_section w =
      (Return tt,
       after_events w
         [StDownloadButton "⬇️ Download JSON" (json_dumps 2 (JObj minutes))
            "minutes.json" "application/json" disabled]) /\
    (disabled = false <->
     truthy (dict_get_default "summary" JNull minutes) = true \/
     truthy (dict_get_default "action_items" JNull minutes) = true).
Proof.
  intros Hm. eexists. split; [apply (download_section_run _ _ Hm)|].
  destruct (truthy (dict_get_default "summary" JNull minutes));
    destruct (truthy (dict_get_default "action_items" JNull minutes));
    cbn; split; auto; intros [H|H]; congruence.
Qed.

Lemma json_dumps_object_truthy (indent : nat) (members : pydict) :
  members <> [] -> str_truthy (json_dumps indent (JObj members)) = true.
Proof. destruct members; [congruence | reflexivity]. Qed.

Lemma merged_minutes_not_empty (parsed : pydict) : dict_merge _blank_minutes parsed <> [].
Proof.
  intros E. assert (H : dict_mem "summary" (dict_merge _blank_minutes parsed) = true).
  { rewrite dict_mem_merge. reflexivity. }
  rewrite E in H. discriminate.
Qed.

Lemma generation_success_world
    (transcript api_key raw_text : string) (c : client) (parsed : pydict) (w : world) :
  str_truthy (strip transcript) = true ->
  str_truthy api_key = true ->
  genai_Client api_key = Return c ->
  reply c (strip transcript) = Return raw_text ->
  json_loads raw_text = Return (JObj parsed) ->
  dict_mem "raw_response" parsed = false ->
  generation_handler transcript api_key w =
  (Return tt,
   World (store_minutes (dict_merge _blank_minutes parsed) (session_state w))
         (trace w ++ [spinner_event; request_event (strip transcript); success_event])%list).
Proof.
  intros Ht Hk Hc Hreply Hloads Hraw.
  rewrite (generation_handler_with_client _ _ _ _ Ht Hk Hc).
  rewrite summarize_meeting_run, Hreply. cbn zeta. rewrite Hloads.
  rewrite dict_mem_merge, Hraw. cbn [orb dict_mem dict_get _blank_minutes String.eqb].
  cbn. now rewrite <- !app_assoc.
Qed.

Lemma generation_malformed_world
    (transcript api_key raw_text : string) (c : client) (e : exn) (w : world) :
  str_truthy (strip transcript) = true ->
  str_truthy api_key = true ->
  genai_Client api_key = Return c ->
  reply c (strip transcript) = Return raw_text ->
  json_loads raw_text = Raise e ->
  is_json_decode_error e = true ->
  generation_handler transcript api_key w =
  (Return tt,
   World (store_raw_response (JStr raw_text) (session_state w))
         (trace w ++ [spinner_event; request_event (strip transcript); malformed_event])%list).
Proof.
  intros Ht Hk Hc Hreply Hloads Hdecode.
  rewrite (generation_handler_with_client _ _ _ _ Ht Hk Hc).
  rewrite summarize_meeting_run, Hreply. cbn zeta. rewrite Hloads, Hdecode.
  cbn. now rewrite <- !app_assoc.
Qed.

(** X12. Right after a successful generation the copy button and the
    download button give the same text: the JSON of the minutes just
    stored, written with two-space indentation. *)
Theorem copy_matches_download_after_success
    (transcript api_key raw_text : string) (c : client) (parsed : pydict) (w : world) :
  str_truthy (strip transcript) = true ->
  str_truthy api_key = true ->
  genai_Client api_key = Return c ->
  reply c (strip transcript) = Return raw_text ->
  json_loads raw_text = Return (JObj parsed) ->
  dict_mem "raw_response" parsed = false ->
  let w' := snd (generation_handler transcript api_key w) in
  let text := json_dumps 2 (JObj (dict_merge _blank_minutes parsed)) in
  copy_section true w' = (Return tt, after_events w' [StCode (JStr text) "json"]) /\
  exists disabled,
    download_section w' =
      (Return tt,
       after_events w'
         [StDownloadButton "⬇️ Download JSON" text "minutes.json" "application/json"
            disabled]).
Proof.
  intros Ht Hk Hc Hreply Hloads Hraw. cbn zeta.
  rewrite (generation_success_world _ _ _ _ _ _ Ht Hk Hc Hreply Hloads Hraw). cbn [snd].
  destruct (store_minutes_lookup (dict_merge _blank_minutes parsed) (session_state w))
    as (H1 & H2 & _).
  split.
  - rewrite (copy_section_run (World _ _) _ H2). cbn [truthy].
    now rewrite (json_dumps_object_truthy 2 _ (merged_minutes_not_empty parsed)).
  - eexists. apply (download_section_run (World _ _) _ H1).
Qed.

(** X13. After a reply that is not valid JSON, the raw output panel shows
    the reply as it came, unless the reply is the empty text, for which
    no panel is shown; the copy button has no JSON to show. *)
Theorem raw_output_after_malformed_reply
    (transcript api_key raw_text : string) (c : client) (e : exn) (w : world) :
  str_truthy (strip transcript) = true ->
  str_truthy api_key = true ->
  genai_Client api_key = Return c ->
  reply c (strip transcript) = Return raw_text ->
  json_loads raw_text = Raise e ->
  is_json_decode_error e = true ->
  let w' := snd (generation_handler transcript api_key w) in
  raw_output_section w' =
    (if str_truthy raw_text
     then (Return tt,
           after_events w' [StExpander "Model raw output"; StCode (JStr raw_text) "json"])
     else (Return tt, w')) /\
  copy_section true w' =
    (Return tt, after_events w' [StInfo "Generate minutes first to view JSON."]).
Proof.
  intros Ht Hk Hc Hreply Hloads Hdecode. cbn zeta.
  rewrite (generation_malformed_world _ _ _ _ _ _ Ht Hk Hc Hreply Hloads Hdecode). cbn [snd].
  destruct (store_raw_response_lookup (JStr raw_text) (session_state w)) as (H1 & H2 & _).
  split.
  - now rewrite (raw_output_section_run (World _ _) _ H1).
  - now rewrite (copy_section_run (World _ _) _ H2).
Qed.

(** ** The tabs *)

Lemma chars_not_nil (c : ascii) (r : string) : chars (String c r) <> [].
Proof.
  cbn [chars]. destruct r as [|c' r']; [discriminate|].
  destruct (continuation c'); [|discriminate].
  destruct (chars (String c' r')); discriminate.
Qed.

Lemma map_outcome_action_lines (items : list json) :
  forallb is_object items = true ->
  exists lines, map_outcome action_line items = Return lines.
Proof.
  induction items as [|item rest IH]; cbn [forallb map_outcome]; intros H.
  - now exists [].
  - apply andb_true_iff in H as [Hitem Hrest].
    destruct (IH Hrest) as [lines Hlines].
    destruct item; try discriminate. cbn [action_line]. rewrite Hlines.
    eexists; reflexivity.
Qed.

Lemma map_outcome_action_raises (items : list json) :
  forallb is_object items = false ->
  exists e, map_outcome action_line items = Raise e /\ exn_class_of e = AttributeError.
Proof.
  induction items as [|item rest IH]; cbn [forallb map_outcome]; intros H; [discriminate|].
  destruct item; cbn [is_object action_line] in *;
    try (eexists; split; reflexivity).
  cbn [andb] in H. destruct (IH H) as (e & He & Hclass). rewrite He.
  exists e. now split.
Qed.

Lemma map_outcome_objects (items : list pydict) :
  map_outcome action_line (map JObj items) =
  Return (map (fun item => "<li>" ++ format_action_item item ++ "</li>") items).
Proof.
  induction items as [|item rest IH]; cbn [map map_outcome action_line]; [reflexivity|].
  now rewrite IH.
Qed.

Lemma list_tab_run (tab : nat) (field empty_text : string) (w : world) (minutes : pydict) :
  dict_get "minutes" (session_state w) = Some (JObj minutes) ->
  list_tab tab field empty_text w =
  let entries := dict_get_default field (JArr []) minutes in
  if truthy entries then
    match py_iter entries with
    | Return values => (Return tt, [(tab, bullet_list (map list_item values))])
    | Raise e => (Raise e, [])
    end
  else (Return tt, [(tab, placeholder empty_text)]).
Proof.
  intros Hm. unfold list_tab, r_bind, r_lift, get_state, markdown. rewrite Hm.
  cbn [fst value_get]. cbn zeta.
  destruct (truthy (dict_get_default field (JArr []) minutes)); [|reflexivity].
  destruct (py_iter (dict_get_default field (JArr []) minutes)); reflexivity.
Qed.

Lemma actions_tab_run (w : world) (minutes : pydict) :
  dict_get "minutes" (session_state w) = Some (JObj minutes) ->
  actions_tab w =
  let actions := dict_get_default "action_items" (JArr []) minutes in
  if truthy actions then
    match py_iter actions with
    | Return items =>
        match map_outcome action_line items with
        | Return lines => (Return tt, [(1, bullet_list lines)])
        | Raise e => (Raise e, [])
        end
    | Raise e => (Raise e, [])
    end
  else (Return tt, [(1, placeholder "No action items to display.")]).
Proof.
  intros Hm. unfold actions_tab, r_bind, r_lift, get_state, markdown. rewrite Hm.
  cbn [fst value_get]. cbn zeta.
  destruct (truthy (dict_get_default "action_items" (JArr []) minutes)); [|reflexivity].
  destruct (py_iter (dict_get_default "action_items" (JArr []) minutes)) as [items|e];
    [|reflexivity].
  destruct (map_outcome action_line items); reflexivity.
Qed.

Lemma summary_tab_run (w : world) (minutes : pydict) :
  dict_get "minutes" (session_state w) = Some (JObj minutes) ->
  summary_tab w =
  let summary_text := dict_get_default "summary" (JStr "") minutes in
  let key_points := dict_get_default "key_points" (JArr []) minutes in
  let paragraph :=
    if truthy summary_text
    then [(0, "<p style='color:#333;'>" ++ py_str summary_text ++ "</p>")]
    else [] in
  if truthy key_points then
    match py_iter key_points with
    | Return points =>
        (Return tt, (paragraph ++ [(0, bullet_list (map list_item points))])%list)
    | Raise e => (Raise e, paragraph)
    end
  else
    (Return tt,
     (paragraph ++
      (if truthy summary_text then [] else [(0, placeholder "No data to display.")]))%list).
Proof.
  intros Hm. unfold summary_tab, r_bind, r_lift, r_ret, get_state, markdown. rewrite Hm.
  cbn [fst value_get]. cbn zeta.
  destruct (truthy (dict_get_default "summary" (JStr "") minutes));
    destruct (truthy (dict_get_default "key_points" (JArr []) minutes));
    try destruct (py_iter (dict_get_default "key_points" (JArr []) minutes));
    reflexivity.
Qed.

(** The default of [get] is a false value, so a missing field is a false one. *)
Lemma get_default_false (k : string) (default : json) (minutes : pydict) :
  truthy default = false ->
  truthy (dict_get_default k default minutes) = truthy (dict_get_default k JNull minutes) /\
  (truthy (dict_get_default k JNull minutes) = true ->
   dict_get_default k default minutes = dict_get_default k JNull minutes).
Proof.
  unfold dict_get_default. intros Hd.
  destruct (dict_get k minutes); [split; reflexivity|].
  rewrite Hd. split; [reflexivity | discriminate].
Qed.

Lemma listable_iter (v : json) :
  truthy v = true ->
  (listable v = true -> exists values, py_iter v = Return values) /\
  (listable v = false ->
   exists e, py_iter v = Raise e /\ exn_class_of e = TypeError).
Proof.
  unfold listable. intros ->. cbn [negb orb].
  destruct v; cbn [py_iter]; split; intros H; try discriminate;
    eexists; try split; reflexivity.
Qed.

Lemma actions_listable_lines (v : json) :
  truthy v = true ->
  (actions_listable v = true ->
   exists items lines, py_iter v = Return items /\ map_outcome action_line items = Return lines) /\
  (actions_listable v = false ->
   exists e, match py_iter v with
             | Return items => map_outcome action_line items
             | Raise e' => Raise e'
             end = Raise e).
Proof.
  unfold actions_listable. intros Ht. rewrite Ht. cbn [negb orb].
  destruct v; cbn [py_iter]; split; intros H; try discriminate;
    try (eexists; reflexivity).
  - destruct s as [|c r]; [discriminate|].
    destruct (chars (String c r)) as [|chunk rest] eqn:E;
      [now elim (chars_not_nil c r)|].
    cbn [map map_outcome action_line]. eexists; reflexivity.
  - destruct (map_outcome_action_lines _ H) as [lines Hl]. now exists items, lines.
  - destruct (map_outcome_action_raises _ H) as (e & He & _). now exists e.
  - destruct members as [|[k x] rest]; [discriminate|].
    cbn [dict_keys map map_outcome action_line]. eexists; reflexivity.
Qed.

Lemma list_tab_outcome (tab : nat) (field empty_text : string) (w : world)
    (minutes : pydict) :
  dict_get "minutes" (session_state w) = Some (JObj minutes) ->
  (listable (dict_get_default field JNull minutes) = true ->
   exists body, list_tab tab field empty_text w = (Return tt, [(tab, body)])) /\
  (listable (dict_get_default field JNull minutes) = false ->
   exists e, list_tab tab field empty_text w = (Raise e, [])).
Proof.
  intros Hm. rewrite (list_tab_run _ _ _ _ _ Hm). cbn zeta.
  destruct (get_default_false field (JArr []) minutes eq_refl) as [Ht Hv].
  rewrite Ht.
  destruct (truthy (dict_get_default field JNull minutes)) eqn:E.
  - rewrite (Hv eq_refl).
    destruct (listable_iter _ E) as [Hok Hbad]. split; intros Hl.
    + destruct (Hok Hl) as [values ->]. eexists; reflexivity.
    + destruct (Hbad Hl) as (e & -> & _). eexists; reflexivity.
  - split; intros Hl; [eexists; reflexivity|].
    unfold listable in Hl. rewrite E in Hl. discriminate.
Qed.

Lemma actions_tab_outcome (w : world) (minutes : pydict) :
  dict_get "minutes" (session_state w) = Some (JObj minutes) ->
  (actions_listable (dict_get_default "action_items" JNull minutes) = true ->
   exists body, actions_tab w = (Return tt, [(1, body)])) /\
  (actions_listable (dict_get_default "action_items" JNull minutes) = false ->
   exists e, actions_tab w = (Raise e, [])).
Proof.
  intros Hm. rewrite (actions_tab_run _ _ Hm). cbn zeta.
  destruct (get_default_false "action_items" (JArr []) minutes eq_refl) as [Ht Hv].
  rewrite Ht.
  destruct (truthy (dict_get_default "action_items" JNull minutes)) eqn:E.
  - rewrite (Hv eq_refl).
    destruct (actions_listable_lines _ E) as [Hok Hbad]. split; intros Hl.
    + destruct (Hok Hl) as (items & lines & -> & ->). eexists; reflexivity.
    + destruct (Hbad Hl) as (e & He).
      destruct (py_iter (dict_get_default "action_items" JNull minutes)) as [items|e'].
      * rewrite He. eexists; reflexivity.
      * eexists; reflexivity.
  - split; intros Hl; [eexists; reflexivity|].
    unfold actions_listable in Hl. rewrite E in Hl. discriminate.
Qed.

Lemma summary_tab_outcome (w : world) (minutes : pydict) :
  dict_get "minutes" (session_state w) = Some (JObj minutes) ->
  (listable (dict_get_default "key_points" JNull minutes) = true ->
   exists body written, summary_tab w = (Return tt, (0, body) :: written)) /\
  (listable (dict_get_default "key_points" JNull minutes) = false ->
   exists e written, summary_tab w = (Raise e, written)).
Proof.
  intros Hm. rewrite (summary_tab_run _ _ Hm). cbn zeta.
  destruct (get_default_false "key_points" (JArr []) minutes eq_refl) as [Ht Hv].
  rewrite Ht.
  destruct (truthy (dict_get_default "key_points" JNull minutes)) eqn:E.
  - rewrite (Hv eq_refl).
    destruct (listable_iter _ E) as [Hok Hbad]. split; intros Hl.
    + destruct (Hok Hl) as [values ->].
      destruct (truthy (dict_get_default "summary" (JStr "") minutes));
        do 2 eexists; reflexivity.
    + destruct (Hbad Hl) as (e & -> & _). do 2 eexists; reflexivity.
  - split; intros Hl.
    + destruct (truthy (dict_get_default "summary" (JStr "") minutes));
        do 2 eexists; reflexivity.
    + unfold listable in Hl. rewrite E in Hl. discriminate.
Qed.

Lemma render_tabs_outcome (w : world) (minutes : pydict) :
  dict_get "minutes" (session_state w) = Some (JObj minutes) ->
  (renderable minutes = true ->
   exists body0 written body1 body2 body3,
     render_tabs w =
       (Return tt, ((0, body0) :: written ++ [(1, body1); (2, body2); (3, body3)])%list)) /\
  (renderable minutes = false -> exists e markup, render_tabs w = (Raise e, markup)).
Proof.
  intros Hm. unfold renderable, render_tabs, decisions_tab, risks_tab.
  destruct (summary_tab_outcome w minutes Hm) as [S1 S0].
  destruct (actions_tab_outcome w minutes Hm) as [A1 A0].
  destruct (list_tab_outcome 2 "decisions" "No decisions to display." w minutes Hm)
    as [D1 D0].
  destruct (list_tab_outcome 3 "risks_open_questions"
              "No risks or open questions to display." w minutes Hm) as [K1 K0].
  destruct (listable (dict_get_default "key_points" JNull minutes)).
  2:{ split; [discriminate|]. intros _.
      destruct (S0 eq_refl) as (e & written & ->). do 2 eexists; reflexivity. }
  destruct (S1 eq_refl) as (body0 & written & ->).
  destruct (actions_listable (dict_get_default "action_items" JNull minutes)).
  2:{ split; [discriminate|]. intros _.
      destruct (A0 eq_refl) as (e & ->). do 2 eexists; reflexivity. }
  destruct (A1 eq_refl) as (body1 & ->).
  destruct (listable (dict_get_default "decisions" JNull minutes)).
  2:{ split; [discriminate|]. intros _.
      destruct (D0 eq_refl) as (e & ->). do 2 eexists; reflexivity. }
  destruct (D1 eq_refl) as (body2 & ->).
  destruct (listable (dict_get_default "risks_open_questions" JNull minutes)).
  2:{ split; [discriminate|]. intros _.
      destruct (K0 eq_refl) as (e & ->). do 2 eexists; reflexivity. }
  destruct (K1 eq_refl) as (body3 & ->).
  split; [|discriminate]. intros _.
  exists body0, written, body1, body2, body3. reflexivity.
Qed.

(** X14. When the summary and the four lists of the minutes are all
    missing or false for Python (empty, null), each of the four tabs shows
    its placeholder and nothing else. *)
Theorem empty_fields_show_placeholders (w : world) (minutes : pydict) :
  dict_get "minutes" (session_state w) = Some (JObj minutes) ->
  Forall (fun field => truthy (dict_get_default field JNull minutes) = false)
         minutes_fields ->
  render_tabs w =
    (Return tt,
     [(0, placeholder "No data to display.");
      (1, placeholder "No action items to display.");
      (2, placeholder "No decisions to display.");
      (3, placeholder "No risks or open questions to display.")]).
Proof.
  intros Hm Hfalse.
  unfold minutes_fields in Hfalse.
  inversion_clear Hfalse as [|? ? Hs H1]. inversion_clear H1 as [|? ? Hk H2].
  inversion_clear H2 as [|? ? Hd H3]. inversion_clear H3 as [|? ? Ha H4].
  inversion_clear H4 as [|? ? Hr _].
  unfold render_tabs, decisions_tab, risks_tab.
  rewrite (summary_tab_run _ _ Hm), (actions_tab_run _ _ Hm), !(list_tab_run _ _ _ _ _ Hm).
  cbn zeta.
  rewrite (proj1 (get_default_false "summary" (JStr "") minutes eq_refl)), Hs.
  rewrite (proj1 (get_default_false "key_points" (JArr []) minutes eq_refl)), Hk.
  rewrite (proj1 (get_default_false "action_items" (JArr []) minutes eq_refl)), Ha.
  rewrite (proj1 (get_default_false "decisions" (JArr []) minutes eq_refl)), Hd.
  rewrite (proj1 (get_default_false "risks_open_questions" (JArr []) minutes eq_refl)), Hr.
  reflexivity.
Qed.

(** X15. The four tabs are drawn without an exception exactly when the
    minutes are renderable: key points, decisions and risks each false
    for Python or a list, a dictionary or a text, and the action items
    false or a list of dictionaries.  Then every tab shows something;
    otherwise the drawing raises and the rest of the page is not run. *)
Theorem render_tabs_returns_iff (w : world) (minutes : pydict) :
  dict_get "minutes" (session_state w) = Some (JObj minutes) ->
  (fst (render_tabs w) = Return tt <-> renderable minutes = true) /\
  (renderable minutes = true ->
   forall tab, tab < 4 -> In tab (map fst (snd (render_tabs w)))).
Proof.
  intros Hm. destruct (render_tabs_outcome w minutes Hm) as [Hok Hbad].
  destruct (renderable minutes).
  - destruct (Hok eq_refl) as (b0 & written & b1 & b2 & b3 & ->).
    split; [split; reflexivity|]. intros _ tab Htab. cbn [snd map fst].
    rewrite map_app. cbn [map fst].
    destruct tab as [|[|[|[|tab]]]]; [now left| | | |lia];
      right; apply in_or_app; right; cbn; auto.
  - destruct (Hbad eq_refl) as (e & markup & ->).
    split; [split; discriminate | discriminate].
Qed.

(** X16. The action tab lists the action items of a list of dictionaries
    one bullet each, in their order, each as [format_action_item] writes
    it. *)
Theorem actions_tab_lists_items (w : world) (minutes : pydict)
    (item : pydict) (rest : list pydict) :
  dict_get "minutes" (session_state w) = Some (JObj minutes) ->
  dict_get "action_items" minutes = Some (JArr (map JObj (item :: rest))) ->
  actions_tab w =
    (Return tt,
     [(1, bullet_list
            (map (fun item => "<li>" ++ format_action_item item ++ "</li>")
                 (item :: rest)))]).
Proof.
  intros Hm Ha. rewrite (actions_tab_run _ _ Hm). cbn zeta.
  rewrite (get_default_present _ _ _ _ Ha). cbn [truthy map py_iter].
  change (JObj item :: map JObj rest) with (map JObj (item :: rest)).
  now rewrite map_outcome_objects.
Qed.

(** ** The page *)

Lemma generate_section_idle (transcript : string) (w : world) :
  generate_section false transcript w = (Return tt, w).
Proof.
  destruct load_api_key_returns as [api_key Hkey].
  unfold generate_section, bind, lift. now rewrite Hkey.
Qed.

(** X17. When the minutes of the session are not renderable, a run of the
    page without a press on Generate ends in the exception of the tabs:
    no button is drawn, the session store is left as it is, and a press on
    Clear has no effect, so that the minutes stay in the session. *)
Theorem unrenderable_minutes_block_page
    (copy_clicked clear_clicked : bool) (transcript : string) (w : world)
    (minutes : pydict) :
  dict_get "minutes" (session_state w) = Some (JObj minutes) ->
  renderable minutes = false ->
  exists e markup,
    page_body false copy_clicked clear_clicked transcript w =
      ((Raise e, World (initialised (session_state w)) (trace w)), markup) /\
    dict_get "minutes" (initialised (session_state w)) = Some (JObj minutes).
Proof.
  intros Hm Hbad.
  assert (Hm' : dict_get "minutes" (initialised (session_state w)) = Some (JObj minutes)).
  { unfold initialised. now rewrite !set_missing_get, Hm. }
  unfold page_body, bind. rewrite init_session_state_run, generate_section_idle.
  destruct (render_tabs_outcome (World (initialised (session_state w)) (trace w))
              minutes Hm') as [_ Hraise].
  destruct (Hraise Hbad) as (e & markup & ->).
  exists e, markup. now split.
Qed.

Lemma session_ready_store (w w' : world) :
  session_state w' = session_state w -> session_ready w -> session_ready w'.
Proof. unfold session_ready. now intros ->. Qed.

Lemma ready_store_minutes (summary store : pydict) (events : list event) :
  Forall (fun field => dict_mem field summary = true) minutes_fields ->
  session_ready (World (store_minutes summary store) events).
Proof.
  intros Hfields.
  destruct (store_minutes_lookup summary store) as (H1 & H2 & H3 & _).
  exists summary, (json_dumps 2 (JObj summary)). cbn [session_state].
  repeat split; try assumption. unfold dict_mem. now rewrite H3.
Qed.

Lemma ready_store_raw_response (raw : json) (store : pydict) (events events' : list event) :
  session_ready (World store events) ->
  session_ready (World (store_raw_response raw store) events').
Proof.
  intros (minutes & raw_json & Hm & Hfields & _ & _).
  destruct (store_raw_response_lookup raw store) as (H1 & H2 & H3).
  exists minutes, "". cbn [session_state] in *.
  repeat split; try assumption.
  - rewrite H3 by discriminate. exact Hm.
  - unfold dict_mem. now rewrite H1.
Qed.

Lemma merged_minutes_fields (parsed : pydict) :
  Forall (fun field => dict_mem field (dict_merge _blank_minutes parsed) = true)
         minutes_fields.
Proof. repeat constructor; now rewrite dict_mem_merge. Qed.

Lemma generate_section_ready (generate_clicked : bool) (transcript : string) (w : world) :
  session_ready w -> session_ready (snd (generate_section generate_clicked transcript w)).
Proof.
  intros Hready. destruct load_api_key_returns as [api_key Hkey].
  unfold generate_section, bind, lift. rewrite Hkey.
  destruct generate_clicked; [|exact Hready].
  destruct (str_truthy (strip transcript)) eqn:Ht.
  2:{ rewrite (generation_handler_no_transcript _ _ _ Ht). exact Hready. }
  destruct (str_truthy api_key) eqn:Hk.
  2:{ rewrite (generation_handler_no_key _ _ _ Ht Hk). exact Hready. }
  destruct (genai_Client api_key) as [c|e] eqn:Hc.
  2:{ rewrite (generation_handler_client_raises _ _ _ _ Ht Hk Hc). exact Hready. }
  rewrite (generation_handler_with_client _ _ _ _ Ht Hk Hc).
  rewrite summarize_meeting_run. cbn zeta. destruct w as [store events].
  destruct (reply c (strip transcript)) as [raw|e]; [|exact Hready].
  destruct (json_loads raw) as [v|e].
  - destruct v; try exact Hready.
    destruct (dict_mem "raw_response" (dict_merge _blank_minutes members)); cbn [snd].
    + eapply ready_store_raw_response. exact Hready.
    + apply ready_store_minutes, merged_minutes_fields.
  - destruct (is_json_decode_error e); [|exact Hready].
    cbn [dict_mem dict_get String.eqb Ascii.eqb Bool.eqb snd].
    eapply ready_store_raw_response. exact Hready.
Qed.

Lemma initialised_ready (w : world) :
  session_state w = [] \/ session_ready w ->
  session_ready (World (initialised (session_state w)) (trace w)).
Proof.
  intros [Hnew | Hready].
  - rewrite Hnew. exists _blank_minutes, "". repeat split; repeat constructor.
  - destruct Hready as (minutes & raw_json & Hm & Hfields & Hj & Hr).
    assert (Hsame : initialised (session_state w) = session_state w).
    { unfold initialised.
      rewrite (set_missing_present "minutes") by (unfold dict_mem; now rewrite Hm).
      rewrite (set_missing_present "raw_json") by (unfold dict_mem; now rewrite Hj).
      now rewrite (set_missing_present "raw_response"). }
    rewrite Hsame. now exists minutes, raw_json.
Qed.

Lemma buttons_ready (copy_clicked clear_clicked : bool) (w : world) :
  session_ready w ->
  session_ready
    (snd ((copy_section copy_clicked ;;
           download_section ;;
           clear_section clear_clicked ;;
           if clear_clicked then ret tt else raw_output_section) w)).
Proof.
  intros Hready.
  destruct (Hready) as (minutes & raw_json & Hm & Hfields & Hj & Hr).
  assert (Hcopy : exists evs, copy_section copy_clicked w = (Return tt, after_events w evs)).
  { destruct copy_clicked.
    - rewrite (copy_section_run _ _ Hj). eexists; reflexivity.
    - exists []. unfold after_events. rewrite app_nil_r. now destruct w. }
  destruct Hcopy as [evs Hcopy].
  unfold bind at 1. rewrite Hcopy.
  unfold bind at 1. rewrite (download_section_run (after_events w evs) minutes Hm).
  rewrite after_events_app.
  unfold bind at 1. destruct clear_clicked.
  - rewrite clear_section_run. cbn [ret snd].
    exists _blank_minutes, "". cbn [session_state].
    repeat split.
    + rewrite !dict_get_set_other by discriminate. apply dict_get_set_same.
    + repeat constructor.
    + rewrite dict_get_set_other by discriminate. apply dict_get_set_same.
    + unfold dict_mem. now rewrite dict_get_set_same.
  - cbn [clear_section ret].
    unfold dict_mem in Hr. destruct (dict_get "raw_response" (session_state w)) as [v|] eqn:Hv;
      [|discriminate].
    rewrite (raw_output_section_run (after_events w _) v Hv).
    destruct (truthy v); exact Hready.
Qed.

(** X18. The page keeps the session well formed.  From a new session, or
    from one whose minutes are a dictionary with the five fields and whose
    stored JSON is a text, every run of the page, whatever is pressed and
    whatever the services answer, ends with a session of that kind, also
    when the run ends in an exception. *)
Theorem page_keeps_session_ready
    (generate_clicked copy_clicked clear_clicked : bool) (transcript : string)
    (w : world) :
  session_state w = [] \/ session_ready w ->
  session_ready
    (snd (fst (page_body generate_clicked copy_clicked clear_clicked transcript w))).
Proof.
  intros Hstart. unfold page_body, bind at 1. rewrite init_session_state_run.
  pose proof (initialised_ready w Hstart) as Hinit.
  pose proof (generate_section_ready generate_clicked transcript _ Hinit) as Hgen.
  destruct (generate_section generate_clicked transcript
              (World (initialised (session_state w)) (trace w))) as [[[]|e] w1];
    cbn [snd fst] in *; [|exact Hgen].
  destruct (render_tabs w1) as [[[]|e] markup]; cbn [snd fst]; [|exact Hgen].
  now apply buttons_ready.
Qed.

Lemma buttons_keep_store (copy_clicked : bool) (w : world) :
  session_ready w ->
  session_state
    (snd ((copy_section copy_clicked ;;
           download_section ;;
           clear_section false ;;
           raw_output_section) w))
  = session_state w.
Proof.
  intros (minutes & raw_json & Hm & Hfields & Hj & Hr).
  assert (Hcopy : exists evs, copy_section copy_clicked w = (Return tt, after_events w evs)).
  { destruct copy_clicked.
    - rewrite (copy_section_run _ _ Hj). eexists; reflexivity.
    - exists []. unfold after_events. rewrite app_nil_r. now destruct w. }
  destruct Hcopy as [evs Hcopy].
  unfold bind at 1. rewrite Hcopy.
  unfold bind at 1. rewrite (download_section_run (after_events w evs) minutes Hm).
  rewrite after_events_app.
  unfold bind at 1. cbn [clear_section ret].
  unfold dict_mem in Hr. destruct (dict_get "raw_response" (session_state w)) as [v|] eqn:Hv;
    [|discriminate].
  rewrite (raw_output_section_run (after_events w _) v Hv).
  destruct (truthy v); reflexivity.
Qed.

(** X19. A run of the page in which neither Generate nor Clear is pressed
    leaves the session store of a well-formed session exactly as it was,
    whether the page is drawn to its end or stops on an exception. *)
Theorem idle_page_keeps_store (copy_clicked : bool) (transcript : string) (w : world) :
  session_ready w ->
  session_state (snd (fst (page_body false copy_clicked false transcript w)))
  = session_state w.
Proof.
  intros Hready.
  assert (Hsame : initialised (session_state w) = session_state w).
  { destruct Hready as (minutes & raw_json & Hm & _ & Hj & Hr). unfold initialised.
    rewrite (set_missing_present "minutes") by (unfold dict_mem; now rewrite Hm).
    rewrite (set_missing_present "raw_json") by (unfold dict_mem; now rewrite Hj).
    now rewrite (set_missing_present "raw_response"). }
  unfold page_body, bind at 1. rewrite init_session_state_run, generate_section_idle, Hsame.
  destruct (render_tabs (World (session_state w) (trace w))) as [[[]|e] markup];
    cbn [fst snd]; [|reflexivity].
  now rewrite buttons_keep_store.
Qed.

(** ** Transcripts of white space, action items with null fields *)

Lemma lstrip_spaces (s : string) :
  Forall (fun c => ascii_space c = true) (list_ascii_of_string s) -> lstrip s = "".
Proof.
  induction s as [|c r IH]; cbn [list_ascii_of_string lstrip]; intros H; [reflexivity|].
  inversion_clear H as [|? ? Hc Hr]. rewrite Hc. now apply IH.
Qed.

(** X20. A transcript made of spaces, tabs, line ends and the other ASCII
    white space only is refused like an empty one: the page shows the
    warning, sends no request and leaves the session as it is. *)
Theorem white_space_transcript_refused (transcript : string) (w : world) :
  Forall (fun c => ascii_space c = true) (list_ascii_of_string transcript) ->
  generate_section true transcript w =
    (Return tt,
     World (session_state w)
       (trace w ++ [StWarning "Please provide a transcript before generating minutes."])%list).
Proof.
  intros Hspace. destruct load_api_key_returns as [api_key Hkey].
  unfold generate_section, bind, lift. rewrite Hkey.
  apply generation_handler_no_transcript.
  unfold strip. now rewrite (lstrip_spaces _ Hspace).
Qed.

(** X21. A null in an action item is not a missing key: a null owner is
    printed as "None", not as "Unassigned", while a null due date and a
    null priority are left out like missing ones. *)
Theorem null_fields_of_action_item (item : pydict) :
  (dict_get "owner" item = Some JNull ->
   prefix "**None** — " (format_action_item item) = true) /\
  (dict_get "due" item = Some JNull ->
   dict_get "priority" item = Some JNull ->
   format_action_item item =
   "**" ++ py_str (dict_get_default "owner" (JStr "Unassigned") item)
        ++ "** — " ++ py_str (dict_get_default "task" (JStr "Task not specified") item)).
Proof.
  rewrite format_action_item_shape. split.
  - intros Ho. rewrite (get_default_present _ _ _ _ Ho). cbn [py_str].
    change ("**" ++ "None" ++ "** — " ++ ?r) with ("**None** — " ++ r).
    apply prefix_app.
  - intros Hd Hp. unfold optional_parts.
    rewrite (get_default_present _ _ _ _ Hd), (get_default_present _ _ _ _ Hp).
    cbn [truthy]. now rewrite !string_app_nil_r.
Qed.

End Application.

(** ** The properties at concrete inputs *)

Lemma summarize_meeting_fills_defaults_witness :
  reply (answering scenario_reply) scenario_transcript = Return scenario_reply /\
  json_loads_fragment scenario_reply = Return (JObj scenario_parsed) /\
  exists result,
    summarize_meeting json_loads_fragment (answering scenario_reply) scenario_transcript
      started_session
      = (Return result, after_events started_session [request_event scenario_transcript]) /\
    dict_keys result = minutes_fields /\
    (forall k, In k minutes_fields -> dict_get k scenario_parsed = None ->
               dict_get k result = Some (empty_default k)) /\
    (forall k v, dict_get k scenario_parsed = Some v -> dict_get k result = Some v) /\
    ((forall k, In k minutes_fields -> In k (dict_keys scenario_parsed)) ->
     dict_eq result scenario_parsed).
Proof.
  split; [reflexivity|]. split; [vm_compute; reflexivity|].
  apply (summarize_meeting_fills_defaults json_loads_fragment (answering scenario_reply)
           scenario_transcript scenario_reply scenario_parsed started_session).
  - reflexivity.
  - vm_compute; reflexivity.
  - repeat (constructor; [simpl; intuition discriminate|]). constructor.
  - simpl. intros k [<-|[<-|[]]]; simpl; auto.
Defined.

Lemma summarize_meeting_raw_fallback_witness :
  exists result,
    summarize_meeting json_loads_fragment (answering "Sorry, I cannot do that.")
      scenario_transcript started_session
      = (Return result, after_events started_session [request_event scenario_transcript]) /\
    dict_keys result = ["raw_response"] /\
    dict_get "raw_response" result = Some (JStr "Sorry, I cannot do that.").
Proof.
  apply (summarize_meeting_raw_fallback json_loads_fragment
           (answering "Sorry, I cannot do that.") scenario_transcript
           "Sorry, I cannot do that." (Exn JSONDecodeError "Expecting value") started_session).
  - reflexivity.
  - vm_compute; reflexivity.
  - reflexivity.
Defined.

Lemma network_failure_keeps_state_witness :
  generation_handler (client_for (failing service_unavailable)) json_loads_fragment
    scenario_transcript "secret-key" busy_session
  = (Return tt,
     after_events busy_session
       [spinner_event; request_event (strip scenario_transcript);
        StError "Failed to generate minutes: 503 UNAVAILABLE"]).
Proof.
  apply (network_failure_keeps_state (client_for (failing service_unavailable))
           json_loads_fragment scenario_transcript "secret-key"
           (failing service_unavailable) service_unavailable busy_session);
    reflexivity.
Defined.

Lemma non_object_response_raises_witness :
  json_loads_fragment "[1, 2]" = Return (JArr [JInt 1; JInt 2]) /\
  generation_handler (client_for (answering "[1, 2]")) json_loads_fragment
    scenario_transcript "secret-key" busy_session
  = (Return tt,
     after_events busy_session
       [spinner_event; request_event (strip scenario_transcript);
        StError "Failed to generate minutes: 'list' object is not a mapping"]).
Proof.
  split; [vm_compute; reflexivity|].
  apply (non_object_response_raises (client_for (answering "[1, 2]")) json_loads_fragment
           scenario_transcript "secret-key" "[1, 2]" (answering "[1, 2]")
           (JArr [JInt 1; JInt 2]) busy_session);
    try reflexivity; intros members; discriminate.
Defined.

Lemma guards_precede_generator_witness :
  generate_section no_secrets empty_environment (client_for (answering scenario_reply))
    json_loads_fragment true ("  " ++ nl ++ " ") busy_session
  = (Return tt,
     after_events busy_session
       [StWarning "Please provide a transcript before generating minutes."]) /\
  generate_section no_secrets empty_environment (client_for (answering scenario_reply))
    json_loads_fragment true scenario_transcript busy_session
  = (Return tt,
     after_events busy_session
       [StError ("No Gemini API key found. Provide it via config.json, the environment, "
                 ++ "or Streamlit secrets.")]).
Proof.
  split.
  - apply (guards_precede_generator no_secrets empty_environment
             (client_for (answering scenario_reply)) json_loads_fragment
             ("  " ++ nl ++ " ") "" busy_session); reflexivity.
  - apply (guards_precede_generator no_secrets empty_environment
             (client_for (answering scenario_reply)) json_loads_fragment
             scenario_transcript "" busy_session); [reflexivity | discriminate | reflexivity].
Defined.

Lemma download_offers_minutes_json_witness :
  download_section busy_session =
    (Return tt,
     after_events busy_session
       [StDownloadButton "⬇️ Download JSON" scenario_file
          "minutes.json" "application/json" false]) /\
  download_section accented_session =
    (Return tt,
     after_events accented_session
       [StDownloadButton "⬇️ Download JSON" accented_file
          "minutes.json" "application/json" false]).
Proof.
  split.
  - rewrite (proj1 (download_offers_minutes_json busy_session scenario_minutes eq_refl)).
    reflexivity.
  - rewrite (proj1 (download_offers_minutes_json accented_session accented_minutes eq_refl)).
    reflexivity.
Defined.

Lemma format_action_item_line_witness :
  format_action_item elided_repr scenario_item
  = "**Bob** — Write release notes | **Due:** Friday | **Priority:** Medium" /\
  format_action_item elided_repr [("task", JStr "Book a room")]
  = "**Unassigned** — Book a room".
Proof.
  split.
  - apply (proj1 (format_action_item_line elided_repr) scenario_item
             "Bob" "Write release notes" "Friday" "Medium");
      try reflexivity; discriminate.
  - apply (proj1 (proj2 (format_action_item_line elided_repr))
             [("task", JStr "Book a room")] "Book a room"); reflexivity.
Defined.

Lemma empty_owner_is_not_defaulted_witness :
  prefix "**** — " (format_action_item elided_repr [("owner", JStr ""); ("task", JStr "Call")])
  = true /\
  prefix "**Unassigned** — "
    (format_action_item elided_repr [("owner", JStr ""); ("task", JStr "Call")])
  = false.
Proof.
  apply (proj1 (empty_owner_is_not_defaulted elided_repr
                  [("owner", JStr ""); ("task", JStr "Call")])).
  reflexivity.
Defined.

(** ** Runs of the sample session *)

(** The scenario of the specification: the two fields of the reply are
    kept, the three others are filled in, and the action item is printed
    on one line. *)
Example scenario_run :
  exists w',
    generation_handler (client_for (answering scenario_reply)) json_loads_fragment
      scenario_transcript "secret-key" started_session = (Return tt, w') /\
    dict_get "minutes" (session_state w') = Some (JObj scenario_minutes) /\
    dict_get "raw_response" (session_state w') = Some (JStr "") /\
    format_action_item elided_repr scenario_item
    = "**Bob** — Write release notes | **Due:** Friday | **Priority:** Medium".
Proof. eexists. vm_compute. repeat split. Qed.

(** A reply that is no JSON keeps the minutes of the session and stores
    the reply as raw output. *)
Example malformed_reply_run :
  exists w',
    generation_handler (client_for (answering "oops")) json_loads_fragment
      scenario_transcript "secret-key" busy_session = (Return tt, w') /\
    session_state w' =
      [("minutes", JObj scenario_minutes); ("raw_json", JStr ""); ("raw_response", JStr "oops")].
Proof. eexists. vm_compute. split; reflexivity. Qed.

Example blank_minutes_dumps :
  json_dumps 2 (JObj _blank_minutes) =
  "{" ++ nl ++
  "  " ++ quoted "summary" ++ ": " ++ quoted "" ++ "," ++ nl ++
  "  " ++ quoted "key_points" ++ ": []," ++ nl ++
  "  " ++ quoted "decisions" ++ ": []," ++ nl ++
  "  " ++ quoted "action_items" ++ ": []," ++ nl ++
  "  " ++ quoted "risks_open_questions" ++ ": []" ++ nl ++
  "}".
Proof. reflexivity. Qed.

Example nested_dumps :
  json_dumps 2 (JObj [("action_items", JArr [JObj [("owner", JStr "Zoë"); ("n", JInt (-3))]])]) =
  "{" ++ nl ++
  "  " ++ quoted "action_items" ++ ": [" ++ nl ++
  "    {" ++ nl ++
  "      " ++ quoted "owner" ++ ": " ++ quoted "Zoë" ++ "," ++ nl ++
  "      " ++ quoted "n" ++ ": -3" ++ nl ++
  "    }" ++ nl ++
  "  ]" ++ nl ++
  "}".
Proof. reflexivity. Qed.

Example strip_unicode_space :
  strip (bytes [194; 160] ++ " " ++ nl ++ bytes [226; 128; 131]) = "" /\
  strip ("  a b " ++ bytes [227; 128; 128]) = "a b".
Proof. split; reflexivity. Qed.

Example load_api_key_runs :
  load_api_key (secrets_with "s3cret") (environment_with "env-key") = Return "s3cret" /\
  load_api_key (secrets_with "") (environment_with "env-key") = Return "env-key" /\
  load_api_key no_secrets (environment_with "env-key") = Return "env-key" /\
  load_api_key no_secrets (environment_with "") = Return "" /\
  load_api_key no_secrets empty_environment = Return "".
Proof. repeat split. Qed.

Example clear_run :
  clear_section true busy_session =
  (Return tt,
   World [("minutes", JObj _blank_minutes); ("raw_json", JStr ""); ("raw_response", JStr "")]
         [StSuccess "Minutes generated successfully!"; StRerun]).
Proof. reflexivity. Qed.

Example init_run :
  init_session_state (World [] []) = (Return tt, started_session) /\
  init_session_state busy_session = (Return tt, busy_session).
Proof. split; reflexivity. Qed.

Example untyped_item_line :
  format_action_item elided_repr [("owner", JNull); ("task", JInt 3); ("due", JStr "")]
  = "**None** — 3".
Proof. reflexivity. Qed.

(** ** The further properties at concrete inputs *)

Lemma summarize_meeting_keeps_extra_keys_witness :
  json_loads_fragment extended_reply = Return (JObj extended_parsed) /\
  exists result,
    fst (summarize_meeting json_loads_fragment (answering extended_reply)
           scenario_transcript started_session) = Return result /\
    dict_keys result =
      (minutes_fields
       ++ filter (fun k => negb (dict_mem k _blank_minutes)) (dict_keys extended_parsed))%list /\
    (forall k v, dict_get k extended_parsed = Some v -> dict_get k result = Some v) /\
    (forall k, In k minutes_fields -> dict_get k extended_parsed = None ->
               dict_get k result = Some (empty_default k)).
Proof.
  split; [vm_compute; reflexivity|].
  apply (summarize_meeting_keeps_extra_keys json_loads_fragment (answering extended_reply)
           scenario_transcript extended_reply extended_parsed started_session).
  - reflexivity.
  - vm_compute; reflexivity.
  - repeat (constructor; [simpl; intuition discriminate|]). constructor.
Defined.

Lemma generation_success_updates_session_witness :
  exists w',
    generation_handler (client_for (answering scenario_reply)) json_loads_fragment
      scenario_transcript "secret-key" started_session = (Return tt, w') /\
    dict_get "minutes" (session_state w')
      = Some (JObj (dict_merge _blank_minutes scenario_parsed)) /\
    dict_get "raw_json" (session_state w')
      = Some (JStr (json_dumps 2 (JObj (dict_merge _blank_minutes scenario_parsed)))) /\
    dict_get "raw_response" (session_state w') = Some (JStr "") /\
    (forall k, k <> "minutes" -> k <> "raw_json" -> k <> "raw_response" ->
               dict_get k (session_state w') = dict_get k (session_state started_session)) /\
    trace w' =
      (trace started_session ++
       [StSpinner "Analyzing meeting..."; request_event (strip scenario_transcript);
        StSuccess "Minutes generated successfully!"])%list.
Proof.
  apply (generation_success_updates_session (client_for (answering scenario_reply))
           json_loads_fragment scenario_transcript "secret-key" scenario_reply
           (answering scenario_reply) scenario_parsed started_session);
    reflexivity.
Defined.

Lemma malformed_reply_keeps_minutes_witness :
  exists w',
    generation_handler (client_for (answering "oops")) json_loads_fragment
      scenario_transcript "secret-key" busy_session = (Return tt, w') /\
    dict_get "raw_response" (session_state w') = Some (JStr "oops") /\
    dict_get "raw_json" (session_state w') = Some (JStr "") /\
    (forall k, k <> "raw_json" -> k <> "raw_response" ->
               dict_get k (session_state w') = dict_get k (session_state busy_session)) /\
    trace w' =
      (trace busy_session ++
       [StSpinner "Analyzing meeting..."; request_event (strip scenario_transcript);
        StError "Model returned malformed JSON. See raw output below."])%list.
Proof.
  apply (malformed_reply_keeps_minutes (client_for (answering "oops")) json_loads_fragment
           scenario_transcript "secret-key" "oops" (answering "oops")
           (Exn JSONDecodeError "Expecting value") busy_session);
    reflexivity.
Defined.

Lemma raw_response_key_taken_for_malformed_witness :
  json_loads_fragment echo_reply = Return (JObj echo_parsed) /\
  exists w',
    generation_handler (client_for (answering echo_reply)) json_loads_fragment
      scenario_transcript "secret-key" busy_session = (Return tt, w') /\
    dict_get "raw_response" (session_state w') = Some (JStr "copied") /\
    dict_get "raw_json" (session_state w') = Some (JStr "") /\
    dict_get "minutes" (session_state w') = dict_get "minutes" (session_state busy_session) /\
    trace w' =
      (trace busy_session ++
       [StSpinner "Analyzing meeting..."; request_event (strip scenario_transcript);
        StError "Model returned malformed JSON. See raw output below."])%list.
Proof.
  split; [vm_compute; reflexivity|].
  apply (raw_response_key_taken_for_malformed (client_for (answering echo_reply))
           json_loads_fragment scenario_transcript "secret-key" echo_reply
           (answering echo_reply) echo_parsed (JStr "copied") busy_session);
    try reflexivity.
  repeat (constructor; [simpl; intuition discriminate|]). constructor.
Defined.

Lemma client_failure_sends_nothing_witness :
  generation_handler (no_client service_unavailable) json_loads_fragment
    scenario_transcript "secret-key" busy_session =
  (Return tt,
   World (session_state busy_session)
     (trace busy_session ++
      [StSpinner "Analyzing meeting...";
       StError "Failed to generate minutes: 503 UNAVAILABLE"])%list).
Proof.
  apply (client_failure_sends_nothing (no_client service_unavailable) json_loads_fragment
           scenario_transcript "secret-key" service_unavailable busy_session);
    reflexivity.
Defined.

Lemma download_enabled_iff_witness :
  exists disabled,
    download_section busy_session =
      (Return tt,
       after_events busy_session
         [StDownloadButton "⬇️ Download JSON" (json_dumps 2 (JObj scenario_minutes))
            "minutes.json" "application/json" disabled]) /\
    (disabled = false <->
     truthy (dict_get_default "summary" JNull scenario_minutes) = true \/
     truthy (dict_get_default "action_items" JNull scenario_minutes) = true).
Proof.
  apply (download_enabled_iff busy_session scenario_minutes). reflexivity.
Defined.

Lemma copy_matches_download_after_success_witness :
  let w' := snd (generation_handler (client_for (answering scenario_reply))
                   json_loads_fragment scenario_transcript "secret-key" started_session) in
  let text := json_dumps 2 (JObj (dict_merge _blank_minutes scenario_parsed)) in
  copy_section true w' = (Return tt, after_events w' [StCode (JStr text) "json"]) /\
  exists disabled,
    download_section w' =
      (Return tt,
       after_events w'
         [StDownloadButton "⬇️ Download JSON" text "minutes.json" "application/json"
            disabled]).
Proof.
  apply (copy_matches_download_after_success (client_for (answering scenario_reply))
           json_loads_fragment scenario_transcript "secret-key" scenario_reply
           (answering scenario_reply) scenario_parsed started_session);
    reflexivity.
Defined.

Lemma raw_output_after_malformed_reply_witness :
  let w' := snd (generation_handler (client_for (answering "oops")) json_loads_fragment
                   scenario_transcript "secret-key" busy_session) in
  raw_output_section w' =
    (if str_truthy "oops"
     then (Return tt,
           after_events w' [StExpander "Model raw output"; StCode (JStr "oops") "json"])
     else (Return tt, w')) /\
  copy_section true w' =
    (Return tt, after_events w' [StInfo "Generate minutes first to view JSON."]).
Proof.
  apply (raw_output_after_malformed_reply (client_for (answering "oops"))
           json_loads_fragment scenario_transcript "secret-key" "oops" (answering "oops")
           (Exn JSONDecodeError "Expecting value") busy_session);
    reflexivity.
Defined.

Lemma empty_fields_show_placeholders_witness :
  render_tabs elided_repr started_session =
    (Return tt,
     [(0, placeholder "No data to display.");
      (1, placeholder "No action items to display.");
      (2, placeholder "No decisions to display.");
      (3, placeholder "No risks or open questions to display.")]).
Proof.
  apply (empty_fields_show_placeholders elided_repr started_session _blank_minutes).
  - reflexivity.
  - repeat constructor.
Defined.

Lemma render_tabs_returns_iff_witness :
  (fst (render_tabs elided_repr busy_session) = Return tt <->
   renderable scenario_minutes = true) /\
  (renderable scenario_minutes = true ->
   forall tab, tab < 4 -> In tab (map fst (snd (render_tabs elided_repr busy_session)))).
Proof.
  apply (render_tabs_returns_iff elided_repr busy_session scenario_minutes). reflexivity.
Defined.

Lemma actions_tab_lists_items_witness :
  actions_tab elided_repr busy_session =
    (Return tt,
     [(1, bullet_list
            (map (fun item => "<li>" ++ format_action_item elided_repr item ++ "</li>")
                 [scenario_item]))]).
Proof.
  apply (actions_tab_lists_items elided_repr busy_session scenario_minutes scenario_item []);
    reflexivity.
Defined.

Lemma unrenderable_minutes_block_page_witness :
  exists e markup,
    page_body no_secrets (environment_with "secret-key")
      (client_for (answering scenario_reply)) json_loads_fragment elided_repr
      false false true scenario_transcript stuck_session =
      ((Raise e, World (initialised (session_state stuck_session)) (trace stuck_session)),
       markup) /\
    dict_get "minutes" (initialised (session_state stuck_session))
      = Some (JObj stuck_minutes).
Proof.
  apply (unrenderable_minutes_block_page no_secrets (environment_with "secret-key")
           (client_for (answering scenario_reply)) json_loads_fragment elided_repr
           false true scenario_transcript stuck_session stuck_minutes);
    reflexivity.
Defined.

Lemma page_keeps_session_ready_witness :
  session_ready
    (snd (fst (page_body no_secrets (environment_with "secret-key")
                 (client_for (answering scenario_reply)) json_loads_fragment elided_repr
                 true false false scenario_transcript (World [] [])))).
Proof.
  apply (page_keeps_session_ready no_secrets (environment_with "secret-key")
           (client_for (answering scenario_reply)) json_loads_fragment elided_repr
           true false false scenario_transcript (World [] [])).
  left. reflexivity.
Defined.

Lemma idle_page_keeps_store_witness :
  session_state
    (snd (fst (page_body no_secrets (environment_with "secret-key")
                 (client_for (answering scenario_reply)) json_loads_fragment elided_repr
                 false true false scenario_transcript busy_session)))
  = session_state busy_session.
Proof.
  apply (idle_page_keeps_store no_secrets (environment_with "secret-key")
           (client_for (answering scenario_reply)) json_loads_fragment elided_repr
           true scenario_transcript busy_session).
  exists scenario_minutes, (json_dumps 2 (JObj scenario_minutes)).
  repeat split; repeat constructor.
Defined.

Lemma white_space_transcript_refused_witness :
  generate_section no_secrets (environment_with "secret-key")
    (client_for (answering scenario_reply)) json_loads_fragment true
    ("  " ++ nl ++ " ") busy_session =
    (Return tt,
     World (session_state busy_session)
       (trace busy_session
        ++ [StWarning "Please provide a transcript before generating minutes."])%list).
Proof.
  apply (white_space_transcript_refused no_secrets (environment_with "secret-key")
           (client_for (answering scenario_reply)) json_loads_fragment
           ("  " ++ nl ++ " ") busy_session).
  repeat constructor.
Defined.

Lemma null_fields_of_action_item_witness :
  prefix "**None** — " (format_action_item elided_repr null_item) = true /\
  format_action_item elided_repr null_item = "**None** — Send notes".
Proof.
  split.
  - apply (proj1 (null_fields_of_action_item elided_repr null_item)). reflexivity.
  - apply (proj2 (null_fields_of_action_item elided_repr null_item)); reflexivity.
Defined.

(** ** Runs of the page *)

(** A reply whose action items are texts is stored with the success
    message, and the same run of the page then stops in the action tab. *)
Example unlistable_reply_run :
  exists e w' markup,
    page_body no_secrets (environment_with "secret-key")
      (client_for (answering ("{" ++ quoted "action_items" ++ ": [" ++ quoted "Call Bob" ++ "]}")))
      json_loads_fragment elided_repr true false false scenario_transcript (World [] [])
    = ((Raise e, w'), markup) /\
    exn_str e = "'str' object has no attribute 'get'" /\
    markup = [(0, placeholder "No data to display.")] /\
    dict_get "minutes" (session_state w') =
      Some (JObj [("summary", JStr ""); ("key_points", JArr []); ("decisions", JArr []);
                  ("action_items", JArr [JStr "Call Bob"]);
                  ("risks_open_questions", JArr [])]).
Proof. do 3 eexists. vm_compute. repeat split. Qed.

Example scenario_page_run :
  exists w' markup,
    page_body no_secrets (environment_with "secret-key")
      (client_for (answering scenario_reply)) json_loads_fragment elided_repr
      true false false scenario_transcript (World [] [])
    = ((Return tt, w'), markup) /\
    markup =
      [(0, "<p style='color:#333;'>Team planned v2 release.</p>");
       (1, bullet_list
             ["<li>**Bob** — Write release notes | **Due:** Friday | **Priority:** Medium</li>"]);
       (2, placeholder "No decisions to display.");
       (3, placeholder "No risks or open questions to display.")].
Proof. do 2 eexists. vm_compute. split; reflexivity. Qed.
